(** * SpaceX EDA scripts: the API-to-table normalisation, verified

    The repository is a set of stand-alone Python scripts.  Each one fetches
    the launch feed of the SpaceX REST API (JSON), joins it against id-keyed
    reference tables (payloads, rockets, launchpads), and builds a table of
    derived records.  This development embeds the data-reshaping part of
    those scripts (the part between the fetch and the plotting) and proves
    what the specification says about it.

    Modelling conventions.
    - A JSON / Python value is a [value].  JSON numbers are exact integers
      ([VInt]); floating-point rounding is not modelled.  [VNaN] is the
      float [nan] that pandas puts into a cell whose key is missing.
    - A Python dict coming from JSON is an association list
      [list (string * value)] (insertion ordered, looked up by key).
    - An id-keyed reference table ([{x['id']: x for x in ...}]) is a
      [gmap string dict]; its keys are the id strings of the API.
    - Python exceptions are the [Raise] results of the [res] monad.
    - pandas: a [DataFrame] is a list of column names and a list of rows;
      building one from a list of dicts fills missing keys with [VNaN].
      Numeric dtype inference of pandas columns is not modelled.
    - The module of a script gives the table each function returns.  What
      a function does between building its table and returning it (the
      summary it prints), and what pandas requires of a whole column, is
      in [Calls] for the two normalizers whose failure modes are stated. *)

From Stdlib Require Import ZArith QArith List String Ascii Bool Lia DecimalString.
From stdpp Require Import gmap strings.
From Stdlib Require OrderedTypeEx Sorted.
Import ListNotations.
Local Open Scope string_scope.
Local Open Scope Z_scope.

(** ** Python values and exceptions *)

Module Py.

#[local] Set Warnings "-register-all".

Inductive value : Type :=
| VNone
| VBool (b : bool)
| VInt (n : Z)
| VNaN
| VStr (s : string)
| VList (l : list value)
| VDict (d : list (string * value)).

Abbreviation dict := (list (string * value)).

Inductive exn : Type :=
  TypeError | AttributeError | KeyError | IndexError | ValueError | OverflowError.

Inductive res (A : Type) : Type :=
| Ok (a : A)
| Raise (e : exn).
Arguments Ok {A} a.
Arguments Raise {A} e.

Definition bind {A B} (m : res A) (k : A -> res B) : res B :=
  match m with
  | Ok a => k a
  | Raise e => Raise e
  end.

Definition raises {A} (m : res A) : bool :=
  match m with Ok _ => false | Raise _ => true end.


Notation "'let*' x ':=' m 'in' k" := (bind m (fun x => k))
  (at level 10, x name, m at level 100, k at level 200).

(** [for x in xs: ...] building a list: the body either appends one
    record, appends nothing, or raises; the first exception stops the loop. *)
Fixpoint for_collect {A B} (body : A -> res (option B)) (xs : list A)
  : res (list B) :=
  match xs with
  | [] => Ok []
  | x :: rest =>
      let* o := body x in
      let* out := for_collect body rest in
      Ok (match o with Some b => b :: out | None => out end)
  end.

(** [for x in xs: ...] where every element yields a value. *)
Fixpoint for_each {A B} (body : A -> res B) (xs : list A) : res (list B) :=
  match xs with
  | [] => Ok []
  | x :: rest =>
      let* b := body x in
      let* out := for_each body rest in
      Ok (b :: out)
  end.

(** [for x in xs: ...] where every element yields several values. *)
Fixpoint for_concat {A B} (body : A -> res (list B)) (xs : list A) : res (list B) :=
  match xs with
  | [] => Ok []
  | x :: rest =>
      let* out := body x in
      let* more := for_concat body rest in
      Ok (out ++ more)%list
  end.

(** [bool(v)] *)
Definition truthy (v : value) : bool :=
  match v with
  | VNone => false
  | VBool b => b
  | VInt n => negb (n =? 0)
  | VNaN => true
  | VStr s => negb (String.eqb s EmptyString)
  | VList l => match l with [] => false | _ => true end
  | VDict d => match d with [] => false | _ => true end
  end.

(** [d.get(key, default)] on a dict. *)
Fixpoint dict_get (d : dict) (key : string) (default : value) : value :=
  match d with
  | [] => default
  | (k, v) :: rest => if String.eqb k key then v else dict_get rest key default
  end.

Definition has_key (d : dict) (key : string) : bool :=
  existsb (fun kv => String.eqb (fst kv) key) d.

(** [v.get(key, default)]: only dicts have a [get] method. *)
Definition py_get (v : value) (key : string) (default : value) : res value :=
  match v with
  | VDict d => Ok (dict_get d key default)
  | _ => Raise AttributeError
  end.

(** [isinstance(v, dict)], [isinstance(v, str)] *)
Definition is_dict (v : value) : bool :=
  match v with VDict _ => true | _ => false end.
Definition is_str (v : value) : bool :=
  match v with VStr _ => true | _ => false end.

(** [v == 'literal'] *)
Definition eq_str (v : value) (s : string) : bool :=
  match v with VStr t => String.eqb t s | _ => false end.

(** [for x in v]: the sequence a value iterates over. *)
Fixpoint chars (s : string) : list value :=
  match s with
  | EmptyString => []
  | String c rest => VStr (String c EmptyString) :: chars rest
  end.

Definition py_iter (v : value) : res (list value) :=
  match v with
  | VList l => Ok l
  | VDict d => Ok (map (fun kv => VStr (fst kv)) d)
  | VStr s => Ok (chars s)
  | VNone | VBool _ | VInt _ | VNaN => Raise TypeError
  end.

(** [len(v)] *)
Definition py_len (v : value) : res Z :=
  match v with
  | VList l => Ok (Z.of_nat (List.length l))
  | VDict d => Ok (Z.of_nat (List.length d))
  | VStr s => Ok (Z.of_nat (String.length s))
  | VNone | VBool _ | VInt _ | VNaN => Raise TypeError
  end.

(** [v[0]] *)
Definition py_first (v : value) : res value :=
  match v with
  | VList (x :: _) => Ok x
  | VList [] => Raise IndexError
  | VStr (String c _) => Ok (VStr (String c EmptyString))
  | VStr EmptyString => Raise IndexError
  | VDict _ => Raise KeyError
  | VNone | VBool _ | VInt _ | VNaN => Raise TypeError
  end.

(** [key in table] for an id-keyed reference table: lists and dicts are
    unhashable, a string is looked up, any other value is not a key. *)
Definition in_table (key : value) (table : gmap string dict) : res bool :=
  match key with
  | VStr s => Ok (match table !! s with Some _ => true | None => false end)
  | VList _ | VDict _ => Raise TypeError
  | VNone | VBool _ | VInt _ | VNaN => Ok false
  end.

(** [table[key]] once [key in table] has been checked. *)
Definition table_at (table : gmap string dict) (key : value) : dict :=
  match key with
  | VStr s => default [] (table !! s)
  | _ => []
  end.

(** [v > 0]: numbers compare ([bool] is an [int], [nan > 0] is [False]);
    every other type raises [TypeError] against an [int]. *)
Definition gt_zero (v : value) : res bool :=
  match v with
  | VInt n => Ok (0 <? n)
  | VBool b => Ok b
  | VNaN => Ok false
  | VNone | VStr _ | VList _ | VDict _ => Raise TypeError
  end.

(** The integer a numeric value adds to a running [int] total. *)
Definition num_of (v : value) : Z :=
  match v with
  | VInt n => n
  | VBool true => 1
  | _ => 0
  end.

(** [needle in s] for two strings. *)
Fixpoint substring_of (needle s : string) : bool :=
  String.prefix needle s ||
  match s with
  | EmptyString => false
  | String _ rest => substring_of needle rest
  end.

(** ['literal' in v] *)
Definition str_in (needle : string) (v : value) : res bool :=
  match v with
  | VStr s => Ok (substring_of needle s)
  | VList l => Ok (existsb (fun x => eq_str x needle) l)
  | VDict d => Ok (has_key d needle)
  | VNone | VBool _ | VInt _ | VNaN => Raise TypeError
  end.

(** [repr] of a string: single quotes unless the text has a single quote
    and no double quote; backslash, the chosen quote and control
    characters are escaped. *)
Definition hex_digit (n : nat) : ascii :=
  nth n (list_ascii_of_string "0123456789abcdef") "0"%char.

Definition escape_char (quote c : ascii) : string :=
  let n := nat_of_ascii c in
  if Ascii.eqb c "\"%char then "\\"
  else if Ascii.eqb c quote then String "\"%char (String c EmptyString)
  else if (n =? 10)%nat then "\n"
  else if (n =? 13)%nat then "\r"
  else if (n =? 9)%nat then "\t"
  else if ((n <? 32) || (n =? 127))%nat then
    String "\"%char (String "x"%char
      (String (hex_digit (n / 16)) (String (hex_digit (n mod 16)) EmptyString)))
  else String c EmptyString.

Fixpoint escape (quote : ascii) (s : string) : string :=
  match s with
  | EmptyString => EmptyString
  | String c rest => escape_char quote c +:+ escape quote rest
  end.

Fixpoint has_char (c : ascii) (s : string) : bool :=
  match s with
  | EmptyString => false
  | String c' rest => Ascii.eqb c c' || has_char c rest
  end.

Definition double_quote : ascii := ascii_of_nat 34.

Definition repr_str (s : string) : string :=
  let quote : ascii :=
    if has_char "'"%char s && negb (has_char double_quote s)
    then double_quote else "'"%char in
  String quote (escape quote s +:+ String quote EmptyString).

Definition str_of_Z (n : Z) : string :=
  NilZero.string_of_int (Z.to_int n).

Fixpoint join (sep : string) (parts : list string) : string :=
  match parts with
  | [] => EmptyString
  | [p] => p
  | p :: rest => p +:+ sep +:+ join sep rest
  end.

(** [repr(v)] *)
Fixpoint py_repr (v : value) : string :=
  match v with
  | VNone => "None"
  | VBool true => "True"
  | VBool false => "False"
  | VInt n => str_of_Z n
  | VNaN => "nan"
  | VStr s => repr_str s
  | VList l => "[" +:+ join ", " (map py_repr l) +:+ "]"
  | VDict d =>
      "{" +:+ join ", "
                (map (fun kv => repr_str (fst kv) +:+ ": " +:+ py_repr (snd kv)) d)
          +:+ "}"
  end.

(** [str(v)] *)
Definition py_str (v : value) : string :=
  match v with
  | VStr s => s
  | _ => py_repr v
  end.

End Py.

(** ** Timestamps and [pd.to_datetime]

    The API writes dates as [2015-06-15T10:21:00.000Z]; the scripts also
    use date-only literals such as [2010-06-04].  The parser below accepts
    these ISO-8601 shapes (UTC); a date-only text is midnight.  Any other
    text makes [to_datetime] raise.  Texts with a UTC offset and cells that
    are numbers, which pandas also reads, are outside this model: no
    property below relies on what happens to them. *)

Module Time.
Import Py.

Record timestamp : Type := mkTime {
  year : Z; month : Z; day : Z;
  hour : Z; minute : Z; second : Z; nanos : Z
}.

(** Position of a timestamp on the time line (mixed radix over valid
    fields, so the order is chronological). *)
Definition key (t : timestamp) : Z :=
  (((((year t * 13 + month t) * 32 + day t) * 24 + hour t) * 60 + minute t)
     * 60 + second t) * 1000000000 + nanos t.

Definition leb (a b : timestamp) : bool := key a <=? key b.

Definition digit (c : ascii) : option Z :=
  let n := nat_of_ascii c in
  if ((48 <=? n) && (n <=? 57))%nat then Some (Z.of_nat (n - 48)) else None.

(** Exactly [k] digits. *)
Fixpoint digits (k : nat) (s : list ascii) (acc : Z) : option (Z * list ascii) :=
  match k with
  | O => Some (acc, s)
  | S k' =>
      match s with
      | c :: rest =>
          match digit c with
          | Some d => digits k' rest (acc * 10 + d)
          | None => None
          end
      | [] => None
      end
  end.

(** One to nine fraction digits, scaled to nanoseconds. *)
Fixpoint fraction (k : nat) (s : list ascii) (acc : Z) : Z * list ascii :=
  match k with
  | O => (acc, s)
  | S k' =>
      match s with
      | c :: rest =>
          match digit c with
          | Some d => fraction k' rest (acc + d * 10 ^ Z.of_nat k')
          | None => (acc, s)
          end
      | [] => (acc, s)
      end
  end.

Definition expect (c : ascii) (s : list ascii) : option (list ascii) :=
  match s with
  | c' :: rest => if Ascii.eqb c c' then Some rest else None
  | [] => None
  end.

Definition leap (y : Z) : bool :=
  ((y mod 4 =? 0) && negb (y mod 100 =? 0)) || (y mod 400 =? 0).

Definition days_in_month (y m : Z) : Z :=
  if m =? 2 then (if leap y then 29 else 28)
  else if (m =? 4) || (m =? 6) || (m =? 9) || (m =? 11) then 30
  else 31.

Definition valid (t : timestamp) : bool :=
  (1 <=? month t) && (month t <=? 12) &&
  (1 <=? day t) && (day t <=? days_in_month (year t) (month t)) &&
  (hour t <=? 23) && (minute t <=? 59) && (second t <=? 59).

Definition parse_clock (y m d : Z) (s : list ascii) : option timestamp :=
  match s with
  | [] => Some (mkTime y m d 0 0 0 0)
  | sep :: s1 =>
      if Ascii.eqb sep "T"%char || Ascii.eqb sep " "%char then
        match digits 2 s1 0 with
        | Some (hh, s2) =>
          match expect ":"%char s2 with
          | Some s3 =>
            match digits 2 s3 0 with
            | Some (mi, s4) =>
              match expect ":"%char s4 with
              | Some s5 =>
                match digits 2 s5 0 with
                | Some (ss, s6) =>
                    let '(ns, s7) :=
                      match s6 with
                      | dot :: (c :: _) as frac =>
                          if Ascii.eqb dot "."%char then
                            match digit c with
                            | Some _ => fraction 9 frac 0
                            | None => (0, s6)
                            end
                          else (0, s6)
                      | _ => (0, s6)
                      end in
                    match s7 with
                    | [] => Some (mkTime y m d hh mi ss ns)
                    | [z] => if Ascii.eqb z "Z"%char
                             then Some (mkTime y m d hh mi ss ns) else None
                    | _ => None
                    end
                | None => None
                end
              | None => None
              end
            | None => None
            end
          | None => None
          end
        | None => None
        end
      else None
  end.

Definition parse (text : string) : option timestamp :=
  match digits 4 (list_ascii_of_string text) 0 with
  | Some (y, s1) =>
    match expect "-"%char s1 with
    | Some s2 =>
      match digits 2 s2 0 with
      | Some (m, s3) =>
        match expect "-"%char s3 with
        | Some s4 =>
          match digits 2 s4 0 with
          | Some (d, s5) =>
              match parse_clock y m d s5 with
              | Some t => if valid t then Some t else None
              | None => None
              end
          | None => None
          end
        | None => None
        end
      | None => None
      end
    | None => None
    end
  | None => None
  end.

(** [pd.to_datetime] on one cell: a missing cell ([None], [nan]) is [NaT]
    (here [None]); a text must parse. *)
Definition to_datetime1 (v : value) : res (option timestamp) :=
  match v with
  | VStr s =>
      match parse s with
      | Some t => Ok (Some t)
      | None => Raise ValueError
      end
  | VNone | VNaN => Ok None
  | VBool _ | VInt _ | VList _ | VDict _ => Raise TypeError
  end.

(** [pd.to_datetime(column)], cell by cell: the timestamps of a column
    pandas can read.  That the texts of one column must have one format
    is in [Calls.to_datetime]. *)
Definition to_datetime (column : list value) : res (list (option timestamp)) :=
  for_each to_datetime1 column.

(** [stamps.dt.year]: [nan] for [NaT]. *)
Definition dt_year (t : option timestamp) : value :=
  match t with
  | Some t => VInt (year t)
  | None => VNaN
  end.

(** [stamp >= 'text'] and [stamp <= 'text']: the text is read as a
    timestamp; a comparison with [NaT] is [False]. *)
Definition ge_text (t : option timestamp) (text : string) : bool :=
  match t, parse text with
  | Some t, Some b => leb b t
  | _, _ => false
  end.

Definition le_text (t : option timestamp) (text : string) : bool :=
  match t, parse text with
  | Some t, Some b => leb t b
  | _, _ => false
  end.

End Time.

(** ** A small model of the pandas [DataFrame] *)

Module Pandas.
Import Py.

Record DataFrame : Type := mkDF {
  columns : list string;
  rows : list dict
}.

Definition mem (c : string) (cols : list string) : bool :=
  existsb (String.eqb c) cols.

(** Keys of the records, in order of first appearance. *)
Definition add_keys (cols : list string) (d : dict) : list string :=
  fold_left (fun acc kv => if mem (fst kv) acc then acc else (acc ++ [fst kv])%list) d cols.

Definition columns_of (records : list dict) : list string :=
  fold_left add_keys records [].

(** One row of the frame: a cell per column, [nan] where the record has
    no such key. *)
Definition fill (cols : list string) (d : dict) : dict :=
  map (fun c => (c, dict_get d c VNaN)) cols.

(** [pd.DataFrame(records)] *)
Definition DataFrame_of (records : list dict) : DataFrame :=
  let cols := columns_of records in
  mkDF cols (map (fill cols) records).

(** [df[c]] *)
Definition getcol (df : DataFrame) (c : string) : res (list value) :=
  if mem c (columns df)
  then Ok (map (fun r => dict_get r c VNaN) (rows df))
  else Raise KeyError.

Definition dict_set (d : dict) (k : string) (v : value) : dict :=
  if has_key d k
  then map (fun kv => if String.eqb (fst kv) k then (k, v) else kv) d
  else (d ++ [(k, v)])%list.

Fixpoint set_cells (rs : list dict) (c : string) (vals : list value) : list dict :=
  match rs, vals with
  | r :: rs', v :: vals' => dict_set r c v :: set_cells rs' c vals'
  | _, _ => []
  end.

Definition add_col (cols : list string) (c : string) : list string :=
  if mem c cols then cols else (cols ++ [c])%list.

(** [df[c] = vals] *)
Definition setcol (df : DataFrame) (c : string) (vals : list value) : DataFrame :=
  mkDF (add_col (columns df) c) (set_cells (rows df) c vals).

(** [row[c]] for a row handed out by [df.iterrows()] *)
Definition row_get (row : dict) (c : string) : res value :=
  if has_key row c then Ok (dict_get row c VNaN) else Raise KeyError.

(** [column.apply(f)] *)
Definition apply (f : value -> res value) (column : list value) : res (list value) :=
  for_each f column.

(** [column.astype(bool)] *)
Definition astype_bool (column : list value) : list value :=
  map (fun v => VBool (truthy v)) column.

(** [df[mask]] *)
Fixpoint select (rs : list dict) (mask : list bool) : list dict :=
  match rs, mask with
  | r :: rs', b :: mask' => if b then r :: select rs' mask' else select rs' mask'
  | _, _ => []
  end.

End Pandas.

(** ** eda_spacex_api.py *)

Module EdaSpacexApi.
Import Py.

(** A row of the table [process_api_data] and
    [create_realistic_sample_data] both build. *)
Record payload_row : Type := mkRow {
  FlightNumber : value;
  LaunchSite : value;
  PayloadMass : Z;
  Success : value;
  Date : value;
  Rocket : value
}.

(** One turn of [for payload in payloads]: an embedded payload object adds
    its [mass_kg] when that is truthy and positive; a bare id (a string)
    and anything else add nothing. *)
Definition add_payload (total_payload_mass : Z) (payload : value) : res Z :=
  match payload with
  | VDict d =>
      let mass_kg := dict_get d "mass_kg" VNone in
      if truthy mass_kg then
        let* positive := gt_zero mass_kg in
        Ok (if positive then total_payload_mass + num_of mass_kg
            else total_payload_mass)
      else Ok total_payload_mass
  | _ => Ok total_payload_mass
  end.

Fixpoint sum_payloads (payloads : list value) (total_payload_mass : Z) : res Z :=
  match payloads with
  | [] => Ok total_payload_mass
  | payload :: rest =>
      let* total := add_payload total_payload_mass payload in
      sum_payloads rest total
  end.

(** [x.get('name', 'Unknown') if isinstance(x, dict) else str(x)] *)
Definition name_of (x : value) : res value :=
  if is_dict x then py_get x "name" (VStr "Unknown") else Ok (VStr (py_str x)).

(** The body of [for launch in launches_data]. *)
Definition process_launch (launch : value) : res (option payload_row) :=
  let* flight_number := py_get launch "flight_number" (VInt 0) in
  let* success := py_get launch "success" (VBool false) in
  let* launch_date := py_get launch "date_utc" (VStr EmptyString) in
  let* rocket := py_get launch "rocket" (VDict []) in
  let* launchpad := py_get launch "launchpad" (VDict []) in
  let* payloads := py_get launch "payloads" (VList []) in
  let* rocket_name := name_of rocket in
  let* launchpad_name := name_of launchpad in
  let* is_falcon9 := str_in "Falcon 9" rocket_name in
  if is_falcon9 then
    let* items := py_iter payloads in
    let* total_payload_mass := sum_payloads items 0 in
    if 0 <? total_payload_mass then
      Ok (Some (mkRow flight_number launchpad_name total_payload_mass
                      success launch_date rocket_name))
    else Ok None
  else Ok None.

(** [process_api_data(launches_data)]: the value it returns, [None] or
    the table [pd.DataFrame(payload_data)] built by lines 104-157.  The
    summary the function prints before it returns, where pandas can still
    raise, is in [Calls.process_api_data]. *)
Definition process_api_data (launches_data : value) : res (option (list payload_row)) :=
  if negb (truthy launches_data) then Ok None
  else
    let* launches := py_iter launches_data in
    let* payload_data := for_collect process_launch launches in
    match payload_data with
    | [] => Ok None
    | _ => Ok (Some payload_data)
    end.

(** *** The synthetic fallback table

    [np.random] is a global generator.  Its state is a value of type
    [rng]; [seed n] is the state [np.random.seed(n)] leaves, and every
    draw maps a state to a result and the next state.  Python floats stay
    abstract. *)

Section Generator.
Variables rng float : Type.
Variable seed : Z -> rng.
Variable choice : list string -> rng -> string * rng.
Variable normal : Z -> Z -> rng -> float * rng.
Variable random : rng -> float * rng.
Variable randint : Z -> Z -> rng -> Z * rng.
(** [int(x)], a float literal, [a / b] on two ints, [x - y], [x < y] *)
Variable int_of_float : float -> Z.
Variable float_lit : string -> float.
Variable true_div : Z -> Z -> float.
Variable fsub : float -> float -> float.
Variable fltb : float -> float -> bool.

(** [min(a, b)] and [max(a, b)] as Python computes them from [<]. *)
Definition fmin (a b : float) : float := if fltb b a then b else a.
Definition fmax (a b : float) : float := if fltb a b then b else a.

Definition launch_sites : list string :=
  ["CCAFS SLC 40"; "KSC LC 39A"; "VAFB SLC 4E";
   "CCAFS LC 40"; "KSC LC 39A"; "VAFB SLC 4E"].

(** [f"{n:02d}"] *)
Definition pad2 (n : Z) : string :=
  let s := str_of_Z n in
  if (String.length s <? 2)%nat then "0" +:+ s else s.

(** The body of [for i in range(n_launches)]. *)
Definition sample_launch (i : Z) (g : rng) : payload_row * rng :=
  let '(launch_site, g) := choice launch_sites g in
  let '(payload_mass, g) :=
    if substring_of "CCAFS" launch_site then normal 5000 1500 g
    else if substring_of "KSC" launch_site then normal 6000 2000 g
    else if substring_of "VAFB" launch_site then normal 4000 1000 g
    else normal 5000 1500 g in
  let payload_mass := Z.max 1000 (int_of_float payload_mass) in
  let success_prob :=
    fsub (float_lit "0.9") (true_div (payload_mass - 3000) 10000) in
  let success_prob := fmax (float_lit "0.6") (fmin (float_lit "0.95") success_prob) in
  let '(draw, g) := random g in
  let success := fltb draw success_prob in
  let '(mm, g) := randint 1 13 g in
  let '(dd, g) := randint 1 29 g in
  (mkRow (VInt (i + 1)) (VStr launch_site) payload_mass (VBool success)
         (VStr ("2020-" +:+ pad2 mm +:+ "-" +:+ pad2 dd)) (VStr "Falcon 9"),
   g).

Fixpoint sample_loop (count : nat) (i : Z) (g : rng) : list payload_row * rng :=
  match count with
  | O => ([], g)
  | S count' =>
      let '(row, g) := sample_launch i g in
      let '(data, g) := sample_loop count' (i + 1) g in
      (row :: data, g)
  end.

Definition n_launches : nat := 120.

(** The sentinels of real API data that a generated row cannot show. *)
Definition sample_row_ok (row : payload_row) : Prop :=
  1000 <= PayloadMass row /\ Rocket row = VStr "Falcon 9"
  /\ PayloadMass row <> 0 /\ Rocket row <> VStr "Unknown".

(** [create_realistic_sample_data()], run with the generator in state [g]:
    the table and the state it leaves. *)
Definition create_realistic_sample_data (g : rng) : list payload_row * rng :=
  sample_loop n_launches 0 (seed 42).

(** The [__main__] block up to the choice of the table to plot;
    [launches_data] is what [fetch_spacex_data] returned ([None] when the
    request failed). *)
Definition main_table (launches_data : value) (g : rng)
  : res (list payload_row * rng) :=
  if truthy launches_data then
    let* df := process_api_data launches_data in
    match df with
    | Some (row :: data) => Ok (row :: data, g)
    | Some [] | None => Ok (create_realistic_sample_data g)
    end
  else Ok (create_realistic_sample_data g).

End Generator.

End EdaSpacexApi.

(** ** flight_vs_launc.py *)

Module FlightVsLaunc.

Section Generator.
Variables rng float : Type.
Variable seed : Z -> rng.
Variable randint : Z -> Z -> rng -> Z * rng.
Variable normal : Z -> Z -> rng -> float * rng.
(** [np.random.choice(options, p=weights)] on texts and on ints *)
Variable choice_str : list string -> list Q -> rng -> string * rng.
Variable choice_int : list Z -> list Q -> rng -> Z * rng.

(** [Date] is [datetime(2010, 1, 1) + timedelta(days=Date_days)]. *)
Record sample_row : Type := mkSample {
  FlightNumber : Z;
  LaunchSite : string;
  Date_days : Z;
  PayloadMass : float;
  Orbit : string;
  Class : Z
}.

(** The dict literal appended by each of the three loops. *)
Definition sample_launch (site : string) (mu sigma : Z) (orbit_p class_p : list Q)
    (flight_number : Z) (g : rng) : sample_row * rng :=
  let '(days, g) := randint 0 3650 g in
  let '(mass, g) := normal mu sigma g in
  let '(orbit, g) := choice_str ["LEO"; "GTO"; "ISS"] orbit_p g in
  let '(class, g) := choice_int [0; 1] class_p g in
  (mkSample flight_number site days mass orbit class, g).

(** [for i in range(count): data.append(...); flight_number += 1] *)
Fixpoint site_loop (count : nat) (site : string) (mu sigma : Z)
    (orbit_p class_p : list Q) (flight_number : Z) (g : rng)
  : list sample_row * Z * rng :=
  match count with
  | O => ([], flight_number, g)
  | S count' =>
      let '(row, g) := sample_launch site mu sigma orbit_p class_p flight_number g in
      let '(data, next, g) :=
        site_loop count' site mu sigma orbit_p class_p (flight_number + 1) g in
      (row :: data, next, g)
  end.

Definition create_spacex_sample_data (g : rng) : list sample_row * rng :=
  let g := seed 42 in
  let flight_number := 1 in
  let '(ccafs, flight_number, g) :=
    site_loop 55 "CCAFS SLC 40" 5000 1500
              [4 # 10; 3 # 10; 3 # 10]%Q [33 # 100; 67 # 100]%Q flight_number g in
  let '(ksc, flight_number, g) :=
    site_loop 22 "KSC LC 39A" 6000 2000
              [3 # 10; 4 # 10; 3 # 10]%Q [25 # 100; 75 # 100]%Q flight_number g in
  let '(vafb, flight_number, g) :=
    site_loop 13 "VAFB SLC 4E" 4000 1000
              [5 # 10; 2 # 10; 3 # 10]%Q [4 # 10; 6 # 10]%Q flight_number g in
  ((ccafs ++ ksc ++ vafb)%list, g).

End Generator.
End FlightVsLaunc.

(** ** max_payload_boosters.py *)

Module MaxPayloadBoosters.
Import Py Time Pandas.


Section Tables.
Variables payloads_data rockets_data : gmap string dict.

(** One turn of [for payload_id in payload_ids] in [extraer_payload_info]. *)
Definition payload_entry (payload_id : value) : res (option value) :=
  let* found := in_table payload_id payloads_data in
  if found then
    let payload := table_at payloads_data payload_id in
    Ok (Some (VDict [("mass_kg", dict_get payload "mass_kg" (VInt 0));
                     ("name", dict_get payload "name" (VStr "Unknown"))]))
  else Ok None.

Definition extraer_payload_info (payload_ids : value) : res value :=
  if negb (truthy payload_ids) then Ok (VList [])
  else
    let* ids := py_iter payload_ids in
    let* payload_info := for_collect payload_entry ids in
    Ok (VList payload_info).

Definition extraer_rocket_info (rocket_id : value) : res value :=
  if truthy rocket_id then
    let* found := in_table rocket_id rockets_data in
    Ok (if found then VDict (table_at rockets_data rocket_id) else VNone)
  else Ok VNone.

(** One turn of [for payload in row['payload_info']]; the state is
    [(total_payload_mass, payload_names)]. *)
Definition add_payload (acc : Z * list value) (payload : value)
  : res (Z * list value) :=
  let* mass := py_get payload "mass_kg" (VInt 0) in
  match mass with
  | VNone => Ok acc
  | _ =>
      let* positive := gt_zero mass in
      if positive then
        let* payload_name := py_get payload "name" (VStr "Unknown") in
        Ok (fst acc + num_of mass, (snd acc ++ [payload_name])%list)
      else Ok acc
  end.

Fixpoint sum_payloads (payload_info : list value) (acc : Z * list value)
  : res (Z * list value) :=
  match payload_info with
  | [] => Ok acc
  | payload :: rest =>
      let* acc' := add_payload acc payload in
      sum_payloads rest acc'
  end.

(** [x.get(field, 'Unknown') if x else 'Unknown'] *)
Definition field_or_unknown (info : value) (field : string) : res value :=
  if truthy info then py_get info field (VStr "Unknown") else Ok (VStr "Unknown").


(** The frame after the four [df[...] = ...] assignments. *)
Definition with_columns (launches : list dict) : res DataFrame :=
  let df := DataFrame_of launches in
  let* payloads := getcol df "payloads" in
  let* payload_info := apply extraer_payload_info payloads in
  let df := setcol df "payload_info" payload_info in
  let* rocket := getcol df "rocket" in
  let* rocket_info := apply extraer_rocket_info rocket in
  let df := setcol df "rocket_info" rocket_info in
  let* dates := getcol df "date_utc" in
  let* stamps := to_datetime dates in
  let df := setcol df "launch_year" (map dt_year stamps) in
  let* flags := getcol df "success" in
  Ok (setcol df "success" (astype_bool flags)).




End Tables.
End MaxPayloadBoosters.

(** ** payload_vs_orbit.py *)

Module PayloadVsOrbit.
Import Py Time Pandas.

Section Tables.
Variable payloads_data : gmap string dict.

(** [payloads_data[payload_ids[0]].get(field, default)] when the list is
    non-empty and its first id is a key of the table, else [default]. *)
Definition first_payload_field (payload_ids : value) (field : string)
    (default : value) : res value :=
  if truthy payload_ids then
    let* n := py_len payload_ids in
    if 0 <? n then
      let* payload_id := py_first payload_ids in
      let* found := in_table payload_id payloads_data in
      if found
      then Ok (dict_get (table_at payloads_data payload_id) field default)
      else Ok default
    else Ok default
  else Ok default.

Definition extraer_orbit (payload_ids : value) : res value :=
  first_payload_field payload_ids "orbit" (VStr "Unknown").

Definition extraer_mass (payload_ids : value) : res value :=
  first_payload_field payload_ids "mass_kg" (VInt 0).

(** The frame after the four [df[...] = ...] assignments. *)
Definition with_columns (launches : list dict) : res DataFrame :=
  let df := DataFrame_of launches in
  let* payloads := getcol df "payloads" in
  let* orbit_type := apply extraer_orbit payloads in
  let df := setcol df "orbit_type" orbit_type in
  let* payloads := getcol df "payloads" in
  let* mass := apply extraer_mass payloads in
  let df := setcol df "payload_mass" mass in
  let* dates := getcol df "date_utc" in
  let* stamps := to_datetime dates in
  let df := setcol df "launch_year" (map dt_year stamps) in
  let* flags := getcol df "success" in
  Ok (setcol df "success" (astype_bool flags)).

(** [procesar_datos(launches)]: the table it returns, the rows whose orbit
    is not ['Unknown'].  The count of orbit types it prints before it
    returns (line 88) is in [Calls.procesar_datos]. *)
Definition procesar_datos (launches : list dict) : res DataFrame :=
  let* df := with_columns launches in
  let* orbit_type := getcol df "orbit_type" in
  Ok (mkDF (columns df)
           (select (rows df) (map (fun o => negb (eq_str o "Unknown")) orbit_type))).

End Tables.
End PayloadVsOrbit.

(** ** landing_outcomes_ranking.py *)

Module LandingOutcomesRanking.
Import Py Time Pandas.

Record landing_outcome : Type := mkOutcome {
  flight_number : value;
  name : value;
  date_utc : option timestamp;
  outcome : string;
  landing_success : value;
  landing_type : value;
  core_id : value
}.

Definition start_date : string := "2010-06-04".
Definition end_date : string := "2017-03-20".

(** [(stamp >= start_date) & (stamp <= end_date)] *)
Definition in_range (stamp : option timestamp) : bool :=
  ge_text stamp start_date && le_text stamp end_date.

(** The [if landing_success: ... else: ...] ladder. *)
Definition classify_landing_outcome (landing_success landing_type : value) : string :=
  if truthy landing_success then
    if eq_str landing_type "RTLS" then "Success (ground pad)"
    else if eq_str landing_type "ASDS" then "Success (drone ship)"
    else if eq_str landing_type "Ocean" then "Success (ocean)"
    else "Success (other)"
  else
    if eq_str landing_type "RTLS" then "Failure (ground pad)"
    else if eq_str landing_type "ASDS" then "Failure (drone ship)"
    else if eq_str landing_type "Ocean" then "Failure (ocean)"
    else "Failure (other)".

(** The body of [for core in cores]. *)
Definition core_outcome (row : dict) (stamp : option timestamp) (core : value)
  : res landing_outcome :=
  let* landing_success := py_get core "landing_success" (VBool false) in
  let* landing_type := py_get core "landing_type" (VStr EmptyString) in
  let outcome := classify_landing_outcome landing_success landing_type in
  let* fn := row_get row "flight_number" in
  let* nm := row_get row "name" in
  let* id := py_get core "core" (VStr "Unknown") in
  Ok (mkOutcome fn nm stamp outcome landing_success landing_type id).

(** The body of [for _, row in df_filtered.iterrows()]. *)
Definition row_outcomes (entry : dict * option timestamp) : res (list landing_outcome) :=
  let '(row, stamp) := entry in
  let* cores := row_get row "cores" in
  if truthy cores then
    let* n := py_len cores in
    if 0 <? n then
      let* items := py_iter cores in
      for_each (core_outcome row stamp) items
    else Ok []
  else Ok [].

(** The rows of [df_filtered], each with its parsed [date_utc]. *)
Definition df_filtered (launches : list dict)
  : res (list (dict * option timestamp)) :=
  let df := DataFrame_of launches in
  let* dates := getcol df "date_utc" in
  let* stamps := to_datetime dates in
  Ok (List.filter (fun entry => in_range (snd entry)) (combine (rows df) stamps)).

(** [clasificar_resultados_aterrizaje(launches)]: the list
    [landing_outcomes] (the tally [outcome_counts] derived from it by
    [value_counts] is reporting and is not modelled). *)
Definition clasificar_resultados_aterrizaje (launches : list dict)
  : res (list landing_outcome) :=
  let* selected := df_filtered launches in
  for_concat row_outcomes selected.

End LandingOutcomesRanking.

(** ** failed_landings_2015.py *)

Module FailedLandings2015.
Import Py Time Pandas.


Section Tables.
Variables rockets_data launchpads_data : gmap string dict.

(** [extraer_rocket_info] and [extraer_launchpad_info] have the same body. *)
Definition extraer_info (table : gmap string dict) (id : value) : res value :=
  if truthy id then
    let* found := in_table id table in
    Ok (if found then VDict (table_at table id) else VNone)
  else Ok VNone.

Definition extraer_rocket_info : value -> res value := extraer_info rockets_data.
Definition extraer_launchpad_info : value -> res value := extraer_info launchpads_data.

(** [x.get(field, 'Unknown') if x else 'Unknown'] *)
Definition field_or_unknown (info : value) (field : string) : res value :=
  if truthy info then py_get info field (VStr "Unknown") else Ok (VStr "Unknown").








End Tables.
End FailedLandings2015.

(** ** launch_sites_pattern.py *)

Module LaunchSitesPattern.
Import Py Pandas.

Section Tables.
Variable launchpads_data : gmap string dict.

Definition extraer_launchpad_info (launchpad_id : value) : res value :=
  if truthy launchpad_id then
    let* found := in_table launchpad_id launchpads_data in
    Ok (if found then VDict (table_at launchpads_data launchpad_id) else VNone)
  else Ok VNone.

(** [lambda x: x.get(field, 'Unknown') if x else 'Unknown'] *)
Definition field_or_unknown (field : string) (x : value) : res value :=
  if truthy x then py_get x field (VStr "Unknown") else Ok (VStr "Unknown").

(** The frame after the five [df[...] = ...] assignments. *)
Definition with_site_columns (launches : list dict) : res DataFrame :=
  let df := DataFrame_of launches in
  let* launchpad := getcol df "launchpad" in
  let* launchpad_info := apply extraer_launchpad_info launchpad in
  let df := setcol df "launchpad_info" launchpad_info in
  let* info := getcol df "launchpad_info" in
  let* site_name := apply (field_or_unknown "name") info in
  let df := setcol df "launch_site_name" site_name in
  let* info := getcol df "launchpad_info" in
  let* full_name := apply (field_or_unknown "full_name") info in
  let df := setcol df "launch_site_full_name" full_name in
  let* info := getcol df "launchpad_info" in
  let* locality := apply (field_or_unknown "locality") info in
  let df := setcol df "launch_site_locality" locality in
  let* info := getcol df "launchpad_info" in
  let* region := apply (field_or_unknown "region") info in
  Ok (setcol df "launch_site_region" region).

(** [text.startswith(pattern)], [False] for a cell that is not a text
    ([na=False]). *)
Definition startswith (pattern : string) (cell : value) : bool :=
  match cell with
  | VStr s => String.prefix pattern s
  | _ => false
  end.

Definition buscar_sitios_patron (launches : list dict) (pattern : string)
  : res DataFrame :=
  let* df := with_site_columns launches in
  let* site_name := getcol df "launch_site_name" in
  Ok (mkDF (columns df) (select (rows df) (map (startswith pattern) site_name))).

End Tables.
End LaunchSitesPattern.

(** ** Specification-side definitions

    What the specification names, written from its words, to be compared
    with the scripts above. *)

Module Spec.
Import Py.

(** The landing types the specification recognises, and its eight
    outcome labels. *)
Inductive landing_site : Type := GroundPad | DroneShip | Ocean | OtherSite.

Inductive outcome_label : Type :=
| SuccessGroundPad | SuccessDroneShip | SuccessOcean | SuccessOther
| FailureGroundPad | FailureDroneShip | FailureOcean | FailureOther.

Definition outcome_of (success : bool) (site : landing_site) : outcome_label :=
  match success, site with
  | true, GroundPad => SuccessGroundPad
  | true, DroneShip => SuccessDroneShip
  | true, Ocean => SuccessOcean
  | true, OtherSite => SuccessOther
  | false, GroundPad => FailureGroundPad
  | false, DroneShip => FailureDroneShip
  | false, Ocean => FailureOcean
  | false, OtherSite => FailureOther
  end.

(** The API spells ground pad, drone ship and ocean as RTLS, ASDS, Ocean. *)
Definition recognize (landing_type : value) : landing_site :=
  if eq_str landing_type "RTLS" then GroundPad
  else if eq_str landing_type "ASDS" then DroneShip
  else if eq_str landing_type "Ocean" then Ocean
  else OtherSite.

Definition label_text (o : outcome_label) : string :=
  match o with
  | SuccessGroundPad => "Success (ground pad)"
  | SuccessDroneShip => "Success (drone ship)"
  | SuccessOcean => "Success (ocean)"
  | SuccessOther => "Success (other)"
  | FailureGroundPad => "Failure (ground pad)"
  | FailureDroneShip => "Failure (drone ship)"
  | FailureOcean => "Failure (ocean)"
  | FailureOther => "Failure (other)"
  end.

Definition all_labels : list outcome_label :=
  [SuccessGroundPad; SuccessDroneShip; SuccessOcean; SuccessOther;
   FailureGroundPad; FailureDroneShip; FailureOcean; FailureOther].

(** The [mass_kg] of the payload ids that resolve, in list order; a
    payload without the key counts as mass 0. *)
Definition resolved_masses (table : gmap string dict) (ids : list string)
  : list value :=
  flat_map (fun id => match table !! id with
                      | Some payload => [dict_get payload "mass_kg" (VInt 0)]
                      | None => []
                      end) ids.

(** What one payload adds to the total: its mass when positive, 0 when
    the mass is null or not positive. *)
Definition contribution (mass_kg : value) : Z :=
  match mass_kg with
  | VInt n => Z.max n 0
  | _ => 0
  end.

(** [sum(max(m, 0) for m in masses)] over all resolved payloads. *)
Definition total_payload_mass (table : gmap string dict) (ids : list string) : Z :=
  fold_right Z.add 0 (map contribution (resolved_masses table ids)).





(** What a reference resolves to: the entity record, or [None]. *)
Definition resolve (table : gmap string dict) (id : value) : value :=
  if truthy id then
    match id with
    | VStr s => match table !! s with Some entry => VDict entry | None => VNone end
    | _ => VNone
    end
  else VNone.

(** A field of a resolved entity, "Unknown" when nothing was resolved. *)
Definition field_of (info : value) (field : string) : value :=
  if truthy info then
    match info with
    | VDict d => dict_get d field (VStr "Unknown")
    | _ => VStr "Unknown"
    end
  else VStr "Unknown".

End Spec.

(** ** Well-formed feeds

    The shapes the API documents for the fields the scripts read.  A key
    may be absent, and a value may be null, wherever a predicate below
    accepts [VNaN] (the cell of an absent key) or [VNone]. *)

Module Shape.
Import Py.

(** A mass is null or a number. *)
Definition mass_ok (mass_kg : value) : bool :=
  match mass_kg with
  | VNone | VInt _ => true
  | _ => false
  end.

(** A reference is an id (a text), null or absent: anything hashable. *)
Definition id_ok (id : value) : bool :=
  match id with
  | VList (_ :: _) | VDict (_ :: _) => false
  | _ => true
  end.




(** *** Feeds of eda_spacex_api.py: launches with embedded objects *)

(** An embedded payload object has a null or numeric [mass_kg]; a bare id
    (or any other value) is skipped by the script. *)
Definition api_payload_ok (payload : value) : bool :=
  match payload with
  | VDict d => mass_ok (dict_get d "mass_kg" VNone)
  | _ => true
  end.

(** A rocket given as an object has a text name, if any. *)
Definition api_rocket_ok (rocket : value) : bool :=
  match rocket with
  | VDict r => is_str (dict_get r "name" (VStr "Unknown"))
  | _ => true
  end.

Definition api_launch_ok (launch : value) : bool :=
  match launch with
  | VDict d =>
      api_rocket_ok (dict_get d "rocket" (VDict []))
      && match dict_get d "payloads" (VList []) with
         | VList l => forallb api_payload_ok l
         | _ => false
         end
  | _ => false
  end.

(** The rocket name and the Falcon 9 test of [process_api_data]. *)
Definition api_rocket_name (launch : value) : value :=
  match launch with
  | VDict d =>
      match dict_get d "rocket" (VDict []) with
      | VDict r => dict_get r "name" (VStr "Unknown")
      | rocket => VStr (py_str rocket)
      end
  | _ => VNone
  end.

Definition api_is_falcon9 (launch : value) : bool :=
  match api_rocket_name launch with
  | VStr s => substring_of "Falcon 9" s
  | _ => false
  end.


(** *** Feeds of the pandas scripts: launches with id references *)

Definition has_columns (launches : list dict) (cols : list string) : bool :=
  forallb (fun c => Pandas.mem c (Pandas.columns_of launches)) cols.






(** launch_sites_pattern.py *)
Definition site_feed_ok (launches : list dict) : bool :=
  has_columns launches ["launchpad"]
  && forallb (fun launch => id_ok (dict_get launch "launchpad" VNaN)) launches.




End Shape.

(** ** The derived rows

    The row each pandas script derives from one launch of a well-formed
    feed, and the columns of the resulting table. *)

Module Rows.
Import Py Time Pandas Spec Shape.


(** The row the script derives from one launch: the launch's own columns,
    then the resolved launchpad and its four fields. *)
Definition site_row (launchpads_data : gmap string dict) (cols : list string)
    (launch : dict) : dict :=
  let info := resolve launchpads_data (dict_get launch "launchpad" VNaN) in
  dict_set
    (dict_set
       (dict_set
          (dict_set
             (dict_set (fill cols launch) "launchpad_info" info)
             "launch_site_name" (field_of info "name"))
          "launch_site_full_name" (field_of info "full_name"))
       "launch_site_locality" (field_of info "locality"))
    "launch_site_region" (field_of info "region").

Definition site_columns (cols : list string) : list string :=
  add_col (add_col (add_col (add_col (add_col cols "launchpad_info")
    "launch_site_name") "launch_site_full_name") "launch_site_locality")
    "launch_site_region".











Definition failed_drone_ship (core : dict) : bool :=
  negb (truthy (dict_get core "landing_success" (VBool false)))
  && eq_str (dict_get core "landing_type" (VStr EmptyString)) "ASDS".



End Rows.

(** ** Concrete feeds used in the examples *)

Module Examples.
Import Py.

Definition dated (flight : Z) (date : string) : dict :=
  [("flight_number", VInt flight); ("date_utc", VStr date)].

(** The date-range scenario of the specification. *)
Definition scenario : list dict :=
  [dated 1 "2010-01-01"; dated 2 "2015-06-15"; dated 3 "2018-01-01"].

(** Records dated on the bounds and one day outside them. *)
Definition boundary : list dict :=
  [dated 1 "2010-06-03"; dated 2 "2010-06-04"; dated 3 "2017-03-20";
   dated 4 "2017-03-21"].

Definition start_stamp : Time.timestamp := Time.mkTime 2010 6 4 0 0 0 0.
Definition end_stamp : Time.timestamp := Time.mkTime 2017 3 20 0 0 0 0.

(** A payload table with two payloads. *)
Definition payloads_table : gmap string dict :=
  {[ "p1" := [("id", VStr "p1"); ("name", VStr "Dragon"); ("mass_kg", VInt 500);
              ("orbit", VStr "LEO")];
     "p2" := [("id", VStr "p2"); ("name", VStr "Sat"); ("mass_kg", VInt 200);
              ("orbit", VStr "GTO")] ]}.

(** Launches as the API delivers them: references are ids. *)
Definition launch (flight : Z) (date : string) (payloads : list string)
    (launchpad : string) (success : value) : dict :=
  [("flight_number", VInt flight); ("name", VStr "mission");
   ("date_utc", VStr date); ("success", success); ("rocket", VStr "r1");
   ("payloads", VList (map VStr payloads)); ("launchpad", VStr launchpad)].

Definition feed : list dict :=
  [launch 1 "2015-01-10T09:47:00.000Z" ["p1"] "pad1" (VBool true);
   launch 2 "2015-04-14T20:10:00.000Z" ["p_missing"] "pad9" VNone;
   launch 3 "2016-03-04T23:35:00.000Z" ["p2"; "p1"] "pad1" (VBool false)].


Definition launchpads_table : gmap string dict :=
  {[ "pad1" := [("id", VStr "pad1"); ("name", VStr "CCSFS SLC 40");
                ("full_name", VStr "Cape Canaveral SLC 40");
                ("locality", VStr "Cape Canaveral"); ("region", VStr "Florida")] ]}.




(** Launches with embedded objects, as [process_api_data] reads them. *)
Definition api_launch (flight : Z) (rocket : string) (payloads success : value)
  : value :=
  VDict [("flight_number", VInt flight);
         ("rocket", VDict [("name", VStr rocket)]);
         ("payloads", payloads); ("success", success)].

Definition api_feed : value :=
  VList [api_launch 1 "Falcon 1" (VList [VDict [("mass_kg", VInt 20)]]) (VBool false);
         api_launch 2 "Falcon 9" (VList [VDict [("mass_kg", VInt 500)]; VStr "p2"])
                    (VBool true);
         api_launch 3 "Falcon 9" (VList [VStr "p3"]) (VBool true)].




End Examples.

(** ** flight_vs_orbit.py, success_rate_vs_orbit.py, yearly_success_trend.py

    The three scripts share one [procesar_datos], word for word: the one
    of payload_vs_orbit.py without its [payload_mass] column.  Their
    [extraer_orbit] is the text of [PayloadVsOrbit.extraer_orbit]. *)

Module FlightVsOrbit.
Import Py Time Pandas.

Section Tables.
Variable payloads_data : gmap string dict.

Definition extraer_orbit : value -> res value :=
  PayloadVsOrbit.extraer_orbit payloads_data.

(** The frame after the three [df[...] = ...] assignments. *)
Definition with_columns (launches : list dict) : res DataFrame :=
  let df := DataFrame_of launches in
  let* payloads := getcol df "payloads" in
  let* orbit_type := apply extraer_orbit payloads in
  let df := setcol df "orbit_type" orbit_type in
  let* dates := getcol df "date_utc" in
  let* stamps := to_datetime dates in
  let df := setcol df "launch_year" (map dt_year stamps) in
  let* flags := getcol df "success" in
  Ok (setcol df "success" (astype_bool flags)).

(** [procesar_datos(launches)]: the table it returns, the rows whose orbit
    is not ['Unknown'].  The count of orbit types it prints before it
    returns (line 79) is not part of the table; [Calls.procesar_datos] has
    the same line of payload_vs_orbit.py. *)
Definition procesar_datos (launches : list dict) : res DataFrame :=
  let* df := with_columns launches in
  let* orbit_type := getcol df "orbit_type" in
  Ok (mkDF (columns df)
           (select (rows df) (map (fun o => negb (eq_str o "Unknown")) orbit_type))).

End Tables.
End FlightVsOrbit.

(** ** mission_outcomes.py *)

Module MissionOutcomes.
Import Py Pandas.

(** The counts [calcular_resultados_misiones] returns; the two rates are
    floats and are not modelled, but the division that computes them is:
    it raises when no launch has a success flag. *)
Inductive results : Type :=
| Results (total_missions successful_missions failed_missions : Z)
| ZeroDivisionError.

(** [cell.notna()] *)
Definition notna (cell : value) : bool :=
  match cell with
  | VNone | VNaN => false
  | _ => true
  end.

(** [cell == True] and [cell == False]: a bool is an int. *)
Definition eq_bool (cell : value) (b : bool) : bool :=
  match cell with
  | VBool c => Bool.eqb c b
  | VInt n => n =? (if b then 1 else 0)
  | _ => false
  end.

Definition calcular_resultados_misiones (launches : list dict) : res results :=
  let df := DataFrame_of launches in
  let* success := getcol df "success" in
  let df_valid := mkDF (columns df) (select (rows df) (map notna success)) in
  let* valid := getcol df_valid "success" in
  let successful_missions :=
    select (rows df_valid) (map (fun cell => eq_bool cell true) valid) in
  let* valid := getcol df_valid "success" in
  let failed_missions :=
    select (rows df_valid) (map (fun cell => eq_bool cell false) valid) in
  let total_missions := Z.of_nat (List.length (rows df_valid)) in
  let success_count := Z.of_nat (List.length successful_missions) in
  let failure_count := Z.of_nat (List.length failed_missions) in
  if total_missions =? 0 then Ok ZeroDivisionError
  else Ok (Results total_missions success_count failure_count).

End MissionOutcomes.

(** ** The reference tables ([obtener_datos_payloads] and its siblings)

    max_payload_boosters.py, payload_vs_orbit.py, failed_landings_2015.py and
    launch_sites_pattern.py each fetch a reference feed and index it with
    [{x['id']: x for x in feed}] inside [try: ... except: return {}].  The
    request itself is outside the model: [response] is [None] when the
    request, its status check or the JSON decoding raised, and the decoded
    value otherwise.  A table whose keys are not all texts has no [gmap
    string dict]; the builder answers [None] for it. *)

Module Reference.
Import Py.

(** [record['id']] *)
Definition subscript_id (record : value) : res value :=
  match record with
  | VDict d => if has_key d "id" then Ok (dict_get d "id" VNone) else Raise KeyError
  | VNone | VBool _ | VInt _ | VNaN | VStr _ | VList _ => Raise TypeError
  end.

(** One [key: value] pair of the comprehension: the key must be hashable.
    [Some (k, d)] is a text key, [None] a hashable key that is not a text. *)
Definition entry_of (record : value) : res (option (string * dict)) :=
  let* id := subscript_id record in
  match id, record with
  | VStr k, VDict d => Ok (Some (k, d))
  | VList _, _ | VDict _, _ => Raise TypeError
  | _, _ => Ok None
  end.

Definition add_entry (table : option (gmap string dict))
    (entry : option (string * dict)) : option (gmap string dict) :=
  match table, entry with
  | Some t, Some (k, d) => Some (<[k := d]> t)
  | _, _ => None
  end.

(** [{x['id']: x for x in records}] *)
Definition comprehension (records : list value) : res (option (gmap string dict)) :=
  let* entries := for_each entry_of records in
  Ok (fold_left add_entry entries (Some ∅)).

(** The body shared by [obtener_datos_payloads], [obtener_datos_rockets]
    and [obtener_datos_launchpads]. *)
Definition obtener_tabla (response : option value) : option (gmap string dict) :=
  match response with
  | None => Some ∅
  | Some feed =>
      match (let* records := py_iter feed in comprehension records) with
      | Ok table => table
      | Raise _ => Some ∅
      end
  end.

Definition obtener_datos_rockets := obtener_tabla.
Definition obtener_datos_launchpads := obtener_tabla.

End Reference.

(** ** The summary of landing_outcomes_ranking.py

    The "summary statistics" block of [mostrar_ranking_resultados]: the
    three counts it prints, and the division by the total that formats
    the two percentages (the percentages themselves are floats and are not
    modelled). *)

Module Report.
Import Py.

Inductive summary : Type :=
| Summary (total_attempts successful_attempts failed_attempts : Z)
| ZeroDivisionError.

Definition summary_statistics
    (landing_outcomes : list LandingOutcomesRanking.landing_outcome) : summary :=
  let total_attempts := Z.of_nat (List.length landing_outcomes) in
  let successful_attempts :=
    Z.of_nat (List.length
                (List.filter (fun o => truthy (LandingOutcomesRanking.landing_success o))
                             landing_outcomes)) in
  let failed_attempts := total_attempts - successful_attempts in
  if total_attempts =? 0 then ZeroDivisionError
  else Summary total_attempts successful_attempts failed_attempts.

End Report.

(** ** Derived tables

    What the remaining scripts compute on a well-formed feed, written as
    plain functions of the feed. *)

Module Derived.
Import Py Time Pandas Spec Shape Rows.

(** *** eda_spacex_api.py *)

Definition api_payload_mass (payload : value) : Z :=
  match payload with
  | VDict d =>
      match dict_get d "mass_kg" VNone with
      | VInt n => Z.max n 0
      | _ => 0
      end
  | _ => 0
  end.

Definition api_payloads_mass (payloads : list value) : Z :=
  fold_right Z.add 0 (map api_payload_mass payloads).

Definition api_total_mass (launch : dict) : Z :=
  match dict_get launch "payloads" (VList []) with
  | VList l => api_payloads_mass l
  | _ => 0
  end.

Definition api_name_of (x : value) : value :=
  match x with
  | VDict r => dict_get r "name" (VStr "Unknown")
  | _ => VStr (py_str x)
  end.

Definition api_row (launch : dict) : EdaSpacexApi.payload_row :=
  EdaSpacexApi.mkRow
    (dict_get launch "flight_number" (VInt 0))
    (api_name_of (dict_get launch "launchpad" (VDict [])))
    (api_total_mass launch)
    (dict_get launch "success" (VBool false))
    (dict_get launch "date_utc" (VStr EmptyString))
    (api_rocket_name (VDict launch)).

Definition api_kept (launch : dict) : bool :=
  api_is_falcon9 (VDict launch) && (0 <? api_total_mass launch).

Definition api_rows (launches : list value) : list EdaSpacexApi.payload_row :=
  flat_map (fun launch =>
              match launch with
              | VDict d => if api_kept d then [api_row d] else []
              | _ => []
              end) launches.

(** A launch in the form the API delivers: its payloads are ids. *)
Definition references_only (launch : value) : bool :=
  match launch with
  | VDict d =>
      api_rocket_ok (dict_get d "rocket" (VDict []))
      && match dict_get d "payloads" (VList []) with
         | VList l => forallb is_str l
         | _ => false
         end
  | _ => false
  end.

(** *** max_payload_boosters.py *)


(** *** landing_outcomes_ranking.py *)






(** ['Success' in outcome] and ['Failure' in outcome], the tests by which
    [grafica_ranking_resultados] splits the labels. *)
Definition success_label (label : string) : bool := substring_of "Success" label.
Definition failure_label (label : string) : bool := substring_of "Failure" label.

(** What every outcome the script records looks like, whatever the feed. *)
Definition recorded (o : LandingOutcomesRanking.landing_outcome) : Prop :=
  LandingOutcomesRanking.in_range (LandingOutcomesRanking.date_utc o) = true
  /\ LandingOutcomesRanking.outcome o
     = LandingOutcomesRanking.classify_landing_outcome
         (LandingOutcomesRanking.landing_success o)
         (LandingOutcomesRanking.landing_type o)
  /\ success_label (LandingOutcomesRanking.outcome o)
     = truthy (LandingOutcomesRanking.landing_success o)
  /\ failure_label (LandingOutcomesRanking.outcome o)
     = negb (truthy (LandingOutcomesRanking.landing_success o)).


(** *** launch_sites_pattern.py *)

Definition site_name (launchpads_data : gmap string dict) (launch : dict) : value :=
  field_of (resolve launchpads_data (dict_get launch "launchpad" VNaN)) "name".

(** *** failed_landings_2015.py: the order of the returned list *)


(** *** flight_vs_orbit.py *)



(** *** mission_outcomes.py *)

(** The success flag of a launch, as the API documents it: a boolean,
    null, or absent. *)
Definition flag_ok (launch : dict) : bool :=
  match dict_get launch "success" VNaN with
  | VBool _ | VNone | VNaN => true
  | _ => false
  end.

Definition flag_is (b : bool) (launch : dict) : bool :=
  MissionOutcomes.eq_bool (dict_get launch "success" VNaN) b.

(** *** The synthetic tables *)

(** The [Date] text of a generated row, and the check that it is the
    calendar date it spells. *)
Definition sample_date (mm dd : Z) : string :=
  "2020-" +:+ EdaSpacexApi.pad2 mm +:+ "-" +:+ EdaSpacexApi.pad2 dd.

Definition valid_sample_date (mm dd : Z) : bool :=
  match parse (sample_date mm dd) with
  | Some t => (year t =? 2020) && (month t =? mm) && (day t =? dd)
  | None => false
  end.

(** [range(lo, lo + n)] *)
Definition range (lo : Z) (n : nat) : list Z :=
  map (fun k => lo + Z.of_nat k) (seq 0 n).

(** *** The id of a reference record *)

Definition id_of (record : dict) : value := dict_get record "id" VNone.

Definition text_id (record : value) : bool :=
  match record with
  | VDict d => has_key d "id" && is_str (id_of d)
  | _ => false
  end.

Definition dicts_of (records : list value) : list dict :=
  flat_map (fun r => match r with VDict d => [d] | _ => [] end) records.

End Derived.

(** ** A concrete generator

    A small congruential generator, used to instantiate the statements
    about the synthetic tables; floats are integers here. *)

Module Generators.

Definition next (g : Z) : Z := (g * 1103515245 + 12345) mod 2147483648.

Definition seed (n : Z) : Z := n mod 2147483648.

Definition randint (lo hi : Z) (g : Z) : Z * Z := (lo + g mod (hi - lo), next g).

Definition choice (options : list string) (g : Z) : string * Z :=
  (nth (Z.to_nat (g mod Z.of_nat (List.length options))) options EmptyString, next g).

Definition normal (mu sigma : Z) (g : Z) : Z * Z := (mu + g mod (sigma + 1), next g).

Definition random (g : Z) : Z * Z := (g mod 100, next g).

End Generators.

(** ** The two normalizers as whole calls

    [EdaSpacexApi.process_api_data] and [PayloadVsOrbit.procesar_datos]
    give the table each function builds.  On the way from there to its
    [return] each function prints a summary of the table, and pandas
    works on whole columns there and in [pd.to_datetime]: it hashes the
    values of a column to count the distinct ones, adds up the success
    flags to average them, and reads every date of a column in the one
    format it infers from the first.  This module has the two functions
    from entry to [return] with these steps.  The numbers they print are
    not modelled, only whether computing them raises. *)

Module Calls.
Import Py Time Pandas.

(** [hash(v)] is defined: lists and dicts are unhashable. *)
Definition hashable (v : value) : bool :=
  match v with
  | VList _ | VDict _ => false
  | VNone | VBool _ | VInt _ | VNaN | VStr _ => true
  end.

(** [column.nunique()] hashes every value of the column. *)
Definition nunique (column : list value) : res unit :=
  if forallb hashable column then Ok tt else Raise TypeError.

(** [column.mean()] skips nulls and adds up booleans and numbers; a text,
    a list or a dict is not a number. *)
Definition numeric (v : value) : bool :=
  match v with
  | VStr _ | VList _ | VDict _ => false
  | VNone | VBool _ | VInt _ | VNaN => true
  end.

Definition mean (column : list value) : res unit :=
  if forallb numeric column then Ok tt else Raise TypeError.

(** The format of a date text: the text with every run of digits
    replaced by one ["0"], so that two texts have the same format when
    they have the same fields, separators and zone suffix. *)
Fixpoint format_of (after_digit : bool) (s : string) : string :=
  match s with
  | EmptyString => EmptyString
  | String c rest =>
      match digit c with
      | Some _ =>
          if after_digit then format_of true rest
          else String "0"%char (format_of true rest)
      | None => String c (format_of false rest)
      end
  end.

Definition texts (column : list value) : list string :=
  flat_map (fun v => match v with VStr s => [s] | _ => [] end) column.

(** Every text of the column has the format of the first. *)
Definition one_format (column : list value) : bool :=
  match texts column with
  | [] => true
  | first :: rest =>
      forallb (fun s => String.eqb (format_of false s) (format_of false first)) rest
  end.

(** [pd.to_datetime(column)] on a whole column: every text must parse,
    and in the format of the first text. *)
Definition to_datetime (column : list value) : res (list (option timestamp)) :=
  let* stamps := Time.to_datetime column in
  if one_format column then Ok stamps else Raise ValueError.

(** [f"{n:.0f}"] of an integer converts it to a float, which fails from
    the first integer that rounds to 2^1024 on. *)
Definition float_bound : Z := 2 ^ 1024 - 2 ^ 970.

Definition format_f (n : Z) : res unit :=
  if Z.abs n <? float_bound then Ok tt else Raise OverflowError.

(** [column.min()] and [column.max()] of a column of integers that is
    not empty. *)
Definition least (column : list Z) : Z :=
  match column with
  | [] => 0
  | n :: rest => fold_left Z.min rest n
  end.

Definition greatest (column : list Z) : Z :=
  match column with
  | [] => 0
  | n :: rest => fold_left Z.max rest n
  end.

(** *** eda_spacex_api.py *)

(** The summary lines of [process_api_data] (lines 160-163): the number of
    rows, the number of distinct launch sites, the least and the greatest
    payload mass, and the mean of the success flags. *)
Definition print_summary (df : list EdaSpacexApi.payload_row) : res unit :=
  let* sites := nunique (map EdaSpacexApi.LaunchSite df) in
  let* low := format_f (least (map EdaSpacexApi.PayloadMass df)) in
  let* high := format_f (greatest (map EdaSpacexApi.PayloadMass df)) in
  let* rate := mean (map EdaSpacexApi.Success df) in
  Ok tt.

Definition process_api_data (launches_data : value)
  : res (option (list EdaSpacexApi.payload_row)) :=
  let* payload_data := EdaSpacexApi.process_api_data launches_data in
  match payload_data with
  | None => Ok None
  | Some df =>
      let* printed := print_summary df in
      Ok (Some df)
  end.

(** *** payload_vs_orbit.py *)

Section Tables.
Variable payloads_data : gmap string dict.

Definition with_columns (launches : list dict) : res DataFrame :=
  let df := DataFrame_of launches in
  let* payloads := getcol df "payloads" in
  let* orbit_type := apply (PayloadVsOrbit.extraer_orbit payloads_data) payloads in
  let df := setcol df "orbit_type" orbit_type in
  let* payloads := getcol df "payloads" in
  let* mass := apply (PayloadVsOrbit.extraer_mass payloads_data) payloads in
  let df := setcol df "payload_mass" mass in
  let* dates := getcol df "date_utc" in
  let* stamps := to_datetime dates in
  let df := setcol df "launch_year" (map dt_year stamps) in
  let* flags := getcol df "success" in
  Ok (setcol df "success" (astype_bool flags)).

Definition procesar_datos (launches : list dict) : res DataFrame :=
  let* df := with_columns launches in
  let* orbit_type := getcol df "orbit_type" in
  let df_clean :=
    mkDF (columns df)
         (select (rows df) (map (fun o => negb (eq_str o "Unknown")) orbit_type)) in
  let* orbit_type := getcol df_clean "orbit_type" in
  let* printed := nunique orbit_type in
  Ok df_clean.

End Tables.

(** *** Feeds of the documented shape

    What the two functions need of the values that are present. *)





End Calls.

(** ** Concrete feeds

    Small feeds on which the hypotheses of the statements below hold. *)

Module Samples.
Import Py.

(** Launches with embedded objects. *)
Definition api_launches : list value :=
  [Examples.api_launch 1 "Falcon 1" (VList [VDict [("mass_kg", VInt 20)]]) (VBool false);
   Examples.api_launch 2 "Falcon 9"
     (VList [VDict [("mass_kg", VInt 500)]; VStr "p2"; VDict [("mass_kg", VInt (-3))];
             VDict [("mass_kg", VInt 40)]]) (VBool true);
   Examples.api_launch 3 "Falcon 9" (VList [VStr "p3"]) (VBool true)].

(** Launches as the API delivers them: references are ids. *)
Definition id_launches : list value := map VDict Examples.feed.

(** A payload feed in which the id "p1" comes twice. *)
Definition payload_records : list value :=
  [VDict [("id", VStr "p1"); ("name", VStr "Dragon"); ("mass_kg", VInt 500)];
   VDict [("id", VStr "p2"); ("name", VStr "Sat"); ("mass_kg", VInt 200)];
   VDict [("id", VStr "p1"); ("name", VStr "Dragon 2"); ("mass_kg", VInt 700)]].

(** A payload feed whose second record has no id. *)
Definition broken_records : list value :=
  [VDict [("id", VStr "p1"); ("name", VStr "Dragon"); ("mass_kg", VInt 500)];
   VDict [("name", VStr "Sat"); ("mass_kg", VInt 200)]].

(** Launches with landing attempts, not in date order: two of 2015 with a
    failed drone-ship landing, one of 2016, one of 2015 that landed. *)
Definition landing_at (flight : Z) (date : string) (cores : list value) : dict :=
  [("flight_number", VInt flight); ("name", VStr "mission");
   ("date_utc", VStr date); ("date_local", VStr date);
   ("rocket", VStr "r9"); ("launchpad", VStr "pad1"); ("cores", VList cores)].

Definition core_of (landing_type : string) (landing_success : value) : value :=
  VDict [("core", VStr "c1"); ("landing_success", landing_success);
         ("landing_type", VStr landing_type)].

Definition landing_launches : list dict :=
  [landing_at 21 "2015-04-14T20:10:00.000Z" [core_of "ASDS" (VBool false)];
   landing_at 19 "2015-01-10T09:47:00.000Z"
     [core_of "ASDS" VNone; core_of "Ocean" (VBool false)];
   landing_at 27 "2016-03-04T23:35:00.000Z" [core_of "ASDS" (VBool false)];
   landing_at 25 "2015-12-22T01:29:00.000Z" [core_of "RTLS" (VBool true)]].


(** A Falcon 9 launch whose success flag is a text. *)
Definition text_success_feed : value :=
  VList [Examples.api_launch 7 "Falcon 9" (VList [VDict [("mass_kg", VInt 500)]])
           (VStr "yes")].

(** A feed whose dates have two formats. *)
Definition mixed_dates_feed : list dict :=
  [Examples.launch 1 "2015-01-10T09:47:00.000Z" ["p1"] "pad1" (VBool true);
   Examples.launch 2 "2015-06-15" ["p2"] "pad1" (VBool true)].

(** A payload table in which an orbit is a list. *)
Definition list_orbit_table : gmap string dict :=
  {[ "p1" := [("id", VStr "p1"); ("orbit", VList [VStr "LEO"])] ]}.

(** A stand-in for Python floats: integers. *)
Definition int_of_float (x : Z) : Z := x.
Definition float_lit (s : string) : Z := 0.
Definition true_div (a b : Z) : Z := a / b.
Definition fsub (a b : Z) : Z := a - b.
Definition fltb (a b : Z) : bool := a <? b.

End Samples.

(** * Properties *)

(** ** The error monad and the loops *)

Section LoopFacts.
Import Py.
Context {A B : Type}.

Lemma for_each_pure (f : A -> res B) (g : A -> B) (xs : list A) :
  (forall x, In x xs -> f x = Ok (g x)) ->
  for_each f xs = Ok (map g xs).
Proof.
  induction xs as [|x xs IH]; intros H; simpl; [reflexivity|].
  rewrite (H x (or_introl eq_refl)). simpl.
  rewrite IH; [reflexivity|]. intros y Hy. apply H. now right.
Qed.


Lemma for_concat_pure (body : A -> res (list B)) (g : A -> list B) (xs : list A) :
  (forall x, In x xs -> body x = Ok (g x)) ->
  for_concat body xs = Ok (concat (map g xs)).
Proof.
  induction xs as [|x xs IH]; intros H; simpl; [reflexivity|].
  rewrite (H x (or_introl eq_refl)). simpl.
  rewrite IH by (intros y Hy; apply H; now right). reflexivity.
Qed.

End LoopFacts.

(** ** Dicts and frames *)

Section TableFacts.
Import Py.

Lemma in_table_found (table : gmap string dict) (id : string) (entry : dict) :
  table !! id = Some entry ->
  in_table (VStr id) table = Ok true /\ table_at table (VStr id) = entry.
Proof.
  intros H. unfold in_table, table_at. rewrite !H. split; reflexivity.
Qed.


End TableFacts.

Section FrameFacts.
Import Py Pandas.

Lemma mem_app (c : string) (xs ys : list string) :
  mem c (xs ++ ys)%list = mem c xs || mem c ys.
Proof. unfold mem. apply existsb_app. Qed.

Lemma dict_get_fill (cols : list string) (d : dict) (c : string) :
  dict_get (fill cols d) c VNaN = if mem c cols then dict_get d c VNaN else VNaN.
Proof.
  induction cols as [|k cols IH]; simpl; [reflexivity|].
  rewrite (String.eqb_sym c k).
  destruct (String.eqb k c) eqn:E; simpl; [|exact IH].
  apply String.eqb_eq in E. now subst.
Qed.

Lemma has_key_fill (cols : list string) (d : dict) (c : string) :
  has_key (fill cols d) c = mem c cols.
Proof.
  induction cols as [|k cols IH]; simpl; [reflexivity|].
  rewrite (String.eqb_sym c k). now rewrite <- IH.
Qed.

Lemma dict_get_app (d1 d2 : dict) (k : string) (v : value) :
  dict_get (d1 ++ d2)%list k v = if has_key d1 k then dict_get d1 k v else dict_get d2 k v.
Proof.
  induction d1 as [|[k' v'] d1 IH]; simpl; [reflexivity|].
  destruct (String.eqb k' k); simpl; [reflexivity|exact IH].
Qed.

Lemma dict_get_absent (d : dict) (k : string) (default : value) :
  has_key d k = false -> dict_get d k default = default.
Proof.
  induction d as [|[a b] d IH]; simpl; [reflexivity|].
  destruct (String.eqb a k); simpl; [discriminate|exact IH].
Qed.


Lemma dict_get_replace_other (d : dict) (k k' : string) (v default : value) :
  String.eqb k k' = false ->
  dict_get (map (fun kv => if String.eqb (fst kv) k then (k, v) else kv) d) k' default
  = dict_get d k' default.
Proof.
  intros Hne. induction d as [|[a b] d IH]; simpl; [reflexivity|].
  destruct (String.eqb a k) eqn:Ea; simpl.
  - apply String.eqb_eq in Ea. subst a. rewrite Hne. exact IH.
  - destruct (String.eqb a k'); [reflexivity|exact IH].
Qed.

Lemma dict_get_replace_same (d : dict) (k : string) (v default : value) :
  has_key d k = true ->
  dict_get (map (fun kv => if String.eqb (fst kv) k then (k, v) else kv) d) k default
  = v.
Proof.
  induction d as [|[a b] d IH]; simpl; [discriminate|].
  destruct (String.eqb a k) eqn:Ea; simpl; intros H.
  - now rewrite String.eqb_refl.
  - rewrite Ea. apply IH. exact H.
Qed.

Lemma dict_get_set (d : dict) (k k' : string) (v default : value) :
  dict_get (dict_set d k v) k' default
  = if String.eqb k k' then v else dict_get d k' default.
Proof.
  unfold dict_set. destruct (has_key d k) eqn:Hk.
  - destruct (String.eqb k k') eqn:E.
    + apply String.eqb_eq in E. subst k'. now apply dict_get_replace_same.
    + now apply dict_get_replace_other.
  - rewrite dict_get_app. simpl.
    destruct (String.eqb k k') eqn:E.
    + apply String.eqb_eq in E. subst k'. now rewrite Hk.
    + destruct (has_key d k') eqn:Hk'; [reflexivity|].
      now rewrite dict_get_absent.
Qed.

Lemma has_key_replace (d : dict) (k k' : string) (v : value) :
  has_key (map (fun kv => if String.eqb (fst kv) k then (k, v) else kv) d) k'
  = has_key d k'.
Proof.
  unfold has_key. induction d as [|[a b] d IH]; simpl; [reflexivity|].
  rewrite IH. destruct (String.eqb a k) eqn:Ea; simpl; [|reflexivity].
  apply String.eqb_eq in Ea. now subst a.
Qed.

Lemma has_key_set (d : dict) (k k' : string) (v : value) :
  has_key (dict_set d k v) k' = String.eqb k k' || has_key d k'.
Proof.
  unfold dict_set. destruct (has_key d k) eqn:Hk.
  - rewrite has_key_replace.
    destruct (String.eqb k k') eqn:E; [|reflexivity].
    apply String.eqb_eq in E. subst k'. exact Hk.
  - unfold has_key. rewrite existsb_app. simpl. rewrite orb_false_r. apply orb_comm.
Qed.

Lemma set_cells_map {X} (e : X -> dict) (g : X -> value) (c : string) (xs : list X) :
  set_cells (map e xs) c (map g xs) = map (fun x => dict_set (e x) c (g x)) xs.
Proof. induction xs as [|x xs IH]; simpl; [reflexivity|now rewrite IH]. Qed.

Lemma select_map {X} (e : X -> dict) (keep : X -> bool) (xs : list X) :
  select (map e xs) (map keep xs) = map e (List.filter keep xs).
Proof.
  induction xs as [|x xs IH]; simpl; [reflexivity|].
  destruct (keep x); simpl; now rewrite IH.
Qed.

(** Reading a column that exists, row by row. *)
Lemma getcol_map {X} (cols : list string) (e : X -> dict) (xs : list X) (c : string) :
  mem c cols = true ->
  getcol (mkDF cols (map e xs)) c = Ok (map (fun x => dict_get (e x) c VNaN) xs).
Proof. intros H. unfold getcol. simpl. rewrite H. now rewrite map_map. Qed.

End FrameFacts.

(** ** Landing outcomes (landing_outcomes_ranking.py, failed_landings_2015.py) *)

Section LandingFacts.
Import Py Spec LandingOutcomesRanking.

Lemma label_text_inj (a b : outcome_label) :
  label_text a = label_text b -> a = b.
Proof. destruct a, b; simpl; intros H; try reflexivity; discriminate H. Qed.

Lemma classify_as_spec (landing_success landing_type : value) :
  classify_landing_outcome landing_success landing_type
  = label_text (outcome_of (truthy landing_success) (recognize landing_type)).
Proof.
  unfold classify_landing_outcome, recognize.
  destruct (truthy landing_success), (eq_str landing_type "RTLS"),
    (eq_str landing_type "ASDS"), (eq_str landing_type "Ocean"); reflexivity.
Qed.

End LandingFacts.

(** ** The orbit of a launch (payload_vs_orbit.py) *)

Section OrbitFacts.
Import Py PayloadVsOrbit.
Variable payloads_data : gmap string dict.


End OrbitFacts.

(** ** The date-range filter (landing_outcomes_ranking.py) *)

Section DateFacts.
Import Py Time Pandas LandingOutcomesRanking Examples.

Lemma in_range_bounds (t : timestamp) :
  in_range (Some t) = (key start_stamp <=? key t) && (key t <=? key end_stamp).
Proof. reflexivity. Qed.

End DateFacts.


(** ** Payload mass (max_payload_boosters.py, payload_vs_orbit.py) *)

Section MassFacts.
Import Py Spec Shape.
Variable payloads_data : gmap string dict.








End MassFacts.

(** ** Resolving references *)

Section ResolveFacts.
Import Py Pandas Spec Shape.

Lemma for_each_map_pure {X A B} (f : A -> res B) (h : X -> A) (g : X -> B)
    (xs : list X) :
  (forall x, In x xs -> f (h x) = Ok (g x)) ->
  for_each f (map h xs) = Ok (map g xs).
Proof.
  induction xs as [|x xs IH]; intros H; simpl; [reflexivity|].
  rewrite (H x (or_introl eq_refl)). simpl.
  rewrite IH by (intros y Hy; apply H; now right). reflexivity.
Qed.


Lemma mem_add_col (cols : list string) (c c' : string) :
  mem c (add_col cols c') = mem c cols || String.eqb c c'.
Proof.
  unfold add_col. destruct (mem c' cols) eqn:H.
  - destruct (String.eqb c c') eqn:E; [|now rewrite orb_false_r].
    apply String.eqb_eq in E. subst. now rewrite H.
  - rewrite mem_app. simpl. now rewrite orb_false_r.
Qed.

Lemma has_columns_mem (launches : list dict) (cols : list string) (c : string) :
  has_columns launches cols = true -> In c cols ->
  mem c (columns_of launches) = true.
Proof.
  unfold has_columns. rewrite List.forallb_forall. intros H Hc. now apply H.
Qed.

(** The three copies of [extraer_*_info] agree with [resolve]. *)
Lemma extraer_info_resolve (table : gmap string dict) (id : value) :
  id_ok id = true ->
  FailedLandings2015.extraer_info table id = Ok (resolve table id).
Proof.
  intros H. unfold FailedLandings2015.extraer_info, resolve, in_table, table_at.
  destruct id as [| b | n | | s | [|x l] | [|kv d]]; try discriminate H;
    cbn [bind]; try reflexivity; try (destruct (truthy _); reflexivity).
  destruct (truthy (VStr s)); [|reflexivity].
  destruct (table !! s); reflexivity.
Qed.

Lemma extraer_launchpad_info_resolve (table : gmap string dict) (id : value) :
  id_ok id = true ->
  LaunchSitesPattern.extraer_launchpad_info table id = Ok (resolve table id).
Proof. exact (extraer_info_resolve table id). Qed.



Lemma resolve_shape (table : gmap string dict) (id : value) :
  resolve table id = VNone \/ exists entry, resolve table id = VDict entry.
Proof.
  unfold resolve. destruct (truthy id); [|now left].
  destruct id as [| | | | s | |]; try (now left).
  destruct (table !! s); [right; eauto|now left].
Qed.

Lemma field_or_unknown_resolved (table : gmap string dict) (id : value)
    (field : string) :
  LaunchSitesPattern.field_or_unknown field (resolve table id)
  = Ok (field_of (resolve table id) field).
Proof.
  destruct (resolve_shape table id) as [-> | [entry ->]]; [reflexivity|].
  unfold LaunchSitesPattern.field_or_unknown, field_of.
  destruct (truthy (VDict entry)); reflexivity.
Qed.

End ResolveFacts.

(** Simplify the cells of a row built by [fill] and [dict_set]. *)
Ltac cells :=
  repeat (rewrite ?dict_get_set, ?has_key_set, ?dict_get_fill, ?has_key_fill,
            ?mem_add_col;
          cbn [String.eqb Ascii.eqb Bool.eqb orb andb];
          rewrite ?orb_true_r, ?orb_false_r).

(** ** launch_sites_pattern.py *)

Section SiteFacts.
Import Py Pandas Spec Shape Rows LaunchSitesPattern.
Variable launchpads_data : gmap string dict.

Lemma with_site_columns_rows (launches : list dict) :
  site_feed_ok launches = true ->
  with_site_columns launchpads_data launches
  = Ok (mkDF (site_columns (columns_of launches))
             (map (site_row launchpads_data (columns_of launches)) launches)).
Proof.
  intros H. apply andb_true_iff in H as [Hcols Hrows].
  pose proof (has_columns_mem _ _ "launchpad" Hcols (or_introl eq_refl)) as Hpad.
  rewrite List.forallb_forall in Hrows.
  unfold with_site_columns, DataFrame_of, setcol, apply. cbv zeta.
  cbn [rows columns].
  set (cols := columns_of launches) in *.
  set (info := fun r : dict => resolve launchpads_data (dict_get r "launchpad" VNaN)).
  rewrite getcol_map by exact Hpad. cbn [bind].
  rewrite (for_each_map_pure _ _ info).
  2:{ intros r Hr. cells. rewrite Hpad.
      apply extraer_launchpad_info_resolve. now apply Hrows. }
  cbn [bind]. rewrite !set_cells_map.
  rewrite getcol_map by (cells; reflexivity). cbn [bind].
  rewrite (for_each_map_pure _ _ (fun r => field_of (info r) "name"))
    by (intros r Hr; cells; apply field_or_unknown_resolved).
  cbn [bind]. rewrite !set_cells_map.
  rewrite getcol_map by (cells; reflexivity). cbn [bind].
  rewrite (for_each_map_pure _ _ (fun r => field_of (info r) "full_name"))
    by (intros r Hr; cells; apply field_or_unknown_resolved).
  cbn [bind]. rewrite !set_cells_map.
  rewrite getcol_map by (cells; reflexivity). cbn [bind].
  rewrite (for_each_map_pure _ _ (fun r => field_of (info r) "locality"))
    by (intros r Hr; cells; apply field_or_unknown_resolved).
  cbn [bind]. rewrite !set_cells_map.
  rewrite getcol_map by (cells; reflexivity). cbn [bind].
  rewrite (for_each_map_pure _ _ (fun r => field_of (info r) "region"))
    by (intros r Hr; cells; apply field_or_unknown_resolved).
  cbn [bind]. rewrite !set_cells_map.
  reflexivity.
Qed.

End SiteFacts.

(** ** Unresolved references *)

Section UnknownFacts.
Import Py Pandas Spec Shape Rows.


End UnknownFacts.

(** ** process_api_data (eda_spacex_api.py) *)

Section ApiFacts.
Import Py Shape EdaSpacexApi.




Lemma rocket_name_of (d : dict) :
  api_rocket_ok (dict_get d "rocket" (VDict [])) = true ->
  exists s, name_of (dict_get d "rocket" (VDict [])) = Ok (VStr s)
            /\ api_rocket_name (VDict d) = VStr s.
Proof.
  intros H. unfold name_of, api_rocket_name.
  destruct (dict_get d "rocket" (VDict [])) as [| b | n | | s | l | r] eqn:E;
    cbn [is_dict py_get]; try (eexists; split; reflexivity).
  simpl in H. destruct (dict_get r "name" (VStr "Unknown")); try discriminate H.
  eexists; split; reflexivity.
Qed.




End ApiFacts.

(** ** The tables of max_payload_boosters.py and payload_vs_orbit.py *)

Section PipelineFacts.
Import Py Time Pandas Spec Shape Rows.



Variables payloads_data rockets_data : gmap string dict.




End PipelineFacts.

Section OrbitPipelineFacts.
Import Py Time Pandas Spec Shape Rows.
Variable payloads_data : gmap string dict.





End OrbitPipelineFacts.

(** ** The records of failed_landings_2015.py *)

Section LandingPipelineFacts.
Import Py Time Pandas Spec Shape Rows.
Variables rockets_data launchpads_data : gmap string dict.









End LandingPipelineFacts.

(** * The claims of the specification *)

Section Claims.
Import Py Time Pandas Spec Shape Rows.








(** C3.  The outcome label is a function of the truth value of
    [landing_success] and of [landing_type] alone, into the eight labels
    of the specification: RTLS, ASDS and Ocean give the ground-pad,
    drone-ship and ocean variant on the side of the success flag, any other
    landing type gives the "other" variant on that side.  The record built
    for a core carries exactly this label, and the 2015 script selects
    exactly the cores labelled "Failure (drone ship)". *)
Theorem classify_landing_outcome_spec :
  (forall landing_success landing_type,
      LandingOutcomesRanking.classify_landing_outcome landing_success landing_type
      = label_text (outcome_of (truthy landing_success) (recognize landing_type)))
  /\ NoDup (map label_text all_labels)
  /\ (forall o, In o all_labels)
  /\ (forall landing_success landing_type,
        eq_str landing_type "RTLS" || eq_str landing_type "ASDS"
          || eq_str landing_type "Ocean" = false ->
        LandingOutcomesRanking.classify_landing_outcome landing_success landing_type
        = if truthy landing_success then "Success (other)" else "Failure (other)")
  /\ LandingOutcomesRanking.classify_landing_outcome (VBool true) (VStr "RTLS")
     = "Success (ground pad)"
  /\ LandingOutcomesRanking.classify_landing_outcome (VBool false) (VStr "ASDS")
     = "Failure (drone ship)"
  /\ LandingOutcomesRanking.classify_landing_outcome (VBool true) (VStr "ASDS")
     = "Success (drone ship)"
  /\ (forall row stamp core record,
        LandingOutcomesRanking.core_outcome row stamp (VDict core) = Ok record ->
        LandingOutcomesRanking.outcome record
        = LandingOutcomesRanking.classify_landing_outcome
            (dict_get core "landing_success" (VBool false))
            (dict_get core "landing_type" (VStr EmptyString)))
  /\ (forall core : dict,
        failed_drone_ship core
        = String.eqb (LandingOutcomesRanking.classify_landing_outcome
                        (dict_get core "landing_success" (VBool false))
                        (dict_get core "landing_type" (VStr EmptyString)))
                     "Failure (drone ship)").
Proof.
  split; [exact classify_as_spec|].
  split.
  { simpl. repeat (apply NoDup_cons_2;
                   [rewrite ?elem_of_cons, ?elem_of_nil; intuition discriminate|]).
    apply NoDup_nil_2. }
  split; [intros o; destruct o; simpl; tauto|].
  split.
  { intros ls lt H. apply orb_false_iff in H as [H H3].
    apply orb_false_iff in H as [H1 H2].
    unfold LandingOutcomesRanking.classify_landing_outcome. rewrite H1, H2, H3.
    destruct (truthy ls); reflexivity. }
  split; [reflexivity|]. split; [reflexivity|]. split; [reflexivity|].
  split.
  { intros row stamp core record H.
    unfold LandingOutcomesRanking.core_outcome in H. simpl in H.
    destruct (row_get row "flight_number"); simpl in H; [|discriminate].
    destruct (row_get row "name"); simpl in H; [|discriminate].
    injection H as <-. reflexivity. }
  intros core. unfold failed_drone_ship,
    LandingOutcomesRanking.classify_landing_outcome.
  set (ls := dict_get core "landing_success" (VBool false)).
  set (lt := dict_get core "landing_type" (VStr EmptyString)).
  destruct (truthy ls); simpl.
  - destruct (eq_str lt "RTLS"), (eq_str lt "ASDS"), (eq_str lt "Ocean"); reflexivity.
  - destruct (eq_str lt "RTLS") eqn:E1.
    + destruct lt; simpl in E1; try discriminate.
      apply String.eqb_eq in E1. subst. reflexivity.
    + destruct (eq_str lt "ASDS"); [reflexivity|].
      destruct (eq_str lt "Ocean"); reflexivity.
Qed.

Lemma classify_landing_outcome_witness :
  LandingOutcomesRanking.classify_landing_outcome (VInt 1) (VStr "parachute")
  = "Success (other)"
  /\ LandingOutcomesRanking.outcome
       (LandingOutcomesRanking.mkOutcome (VInt 7) VNaN None
          (LandingOutcomesRanking.classify_landing_outcome (VBool false) (VStr "ASDS"))
          (VBool false) (VStr "ASDS") (VStr "c1"))
     = LandingOutcomesRanking.classify_landing_outcome (VBool false) (VStr "ASDS").
Proof.
  destruct classify_landing_outcome_spec
    as (_ & _ & _ & Hother & _ & _ & _ & Hcore & _).
  split.
  - apply Hother. reflexivity.
  - apply (Hcore [("flight_number", VInt 7); ("name", VNaN)] None
                 [("landing_success", VBool false); ("landing_type", VStr "ASDS");
                  ("core", VStr "c1")]).
    reflexivity.
Defined.





(** C7.  The filter keeps a row exactly when its UTC timestamp lies
    between the two bounds, both included; each bound text is read as the
    timestamp at midnight of that day, so a launch later on the end day is
    past the bound.  A row without a timestamp is dropped.  On the scenario
    of the specification the filter keeps exactly the record of 2015-06-15,
    and records dated on the bounds are kept while those one day outside
    are dropped. *)
Theorem date_range_filter_inclusive :
  (forall t, LandingOutcomesRanking.in_range (Some t) = true
             <-> key Examples.start_stamp <= key t /\ key t <= key Examples.end_stamp)
  /\ LandingOutcomesRanking.in_range (Some Examples.start_stamp) = true
  /\ LandingOutcomesRanking.in_range (Some Examples.end_stamp) = true
  /\ (forall t, key t < key Examples.start_stamp ->
                LandingOutcomesRanking.in_range (Some t) = false)
  /\ (forall t, key Examples.end_stamp < key t ->
                LandingOutcomesRanking.in_range (Some t) = false)
  /\ LandingOutcomesRanking.in_range (Some (mkTime 2017 3 20 12 0 0 0)) = false
  /\ LandingOutcomesRanking.in_range None = false
  /\ (forall launches selected row stamp,
        LandingOutcomesRanking.df_filtered launches = Ok selected ->
        In (row, stamp) selected -> LandingOutcomesRanking.in_range stamp = true)
  /\ LandingOutcomesRanking.df_filtered Examples.scenario
     = Ok [([("flight_number", VInt 2); ("date_utc", VStr "2015-06-15")],
            Some (mkTime 2015 6 15 0 0 0 0))]
  /\ LandingOutcomesRanking.df_filtered Examples.boundary
     = Ok [([("flight_number", VInt 2); ("date_utc", VStr "2010-06-04")],
            Some Examples.start_stamp);
           ([("flight_number", VInt 3); ("date_utc", VStr "2017-03-20")],
            Some Examples.end_stamp)].
Proof.
  split.
  { intros t. rewrite in_range_bounds, andb_true_iff, !Z.leb_le. tauto. }
  split; [reflexivity|]. split; [reflexivity|].
  split.
  { intros t H. rewrite in_range_bounds.
    apply andb_false_iff. left. apply Z.leb_gt. exact H. }
  split.
  { intros t H. rewrite in_range_bounds.
    apply andb_false_iff. right. apply Z.leb_gt. exact H. }
  split; [reflexivity|]. split; [reflexivity|].
  split.
  { intros launches selected row stamp H Hin.
    unfold LandingOutcomesRanking.df_filtered in H.
    destruct (getcol _ _); simpl in H; [|discriminate].
    destruct (to_datetime _); simpl in H; [|discriminate].
    injection H as <-. apply List.filter_In in Hin as [_ Hin]. exact Hin. }
  split; vm_compute; reflexivity.
Qed.

Lemma date_range_filter_inclusive_witness :
  LandingOutcomesRanking.in_range (Some (mkTime 2010 1 1 0 0 0 0)) = false
  /\ LandingOutcomesRanking.in_range (Some (mkTime 2018 1 1 0 0 0 0)) = false
  /\ LandingOutcomesRanking.in_range (Some (mkTime 2015 6 15 0 0 0 0)) = true.
Proof.
  destruct date_range_filter_inclusive
    as (Hiff & _ & _ & Hlo & Hhi & _ & _ & Hsel & Hsc & _).
  split; [apply Hlo; vm_compute; reflexivity|].
  split; [apply Hhi; vm_compute; reflexivity|].
  apply (Hsel Examples.scenario _
              [("flight_number", VInt 2); ("date_utc", VStr "2015-06-15")] _ Hsc).
  left. reflexivity.
Defined.




End Claims.

(** ** The synthetic fallback tables (eda_spacex_api.py, flight_vs_launc.py) *)

Section SampleFacts.
Import Py EdaSpacexApi.
Variables rng float : Type.
Variable seed : Z -> rng.
Variable choice : list string -> rng -> string * rng.
Variable normal : Z -> Z -> rng -> float * rng.
Variable random : rng -> float * rng.
Variable randint : Z -> Z -> rng -> Z * rng.
Variable int_of_float : float -> Z.
Variable float_lit : string -> float.
Variable true_div : Z -> Z -> float.
Variable fsub : float -> float -> float.
Variable fltb : float -> float -> bool.

Local Abbreviation launch :=
  (sample_launch rng float choice normal random randint int_of_float float_lit
                 true_div fsub fltb).
Local Abbreviation loop :=
  (sample_loop rng float choice normal random randint int_of_float float_lit
               true_div fsub fltb).
Local Abbreviation create :=
  (create_realistic_sample_data rng float seed choice normal random randint
                                int_of_float float_lit true_div fsub fltb).

Lemma sample_launch_ok (i : Z) (g : rng) :
  sample_row_ok (fst (launch i g)) /\ FlightNumber (fst (launch i g)) = VInt (i + 1).
Proof.
  unfold sample_launch, sample_row_ok.
  destruct (choice launch_sites g) as [site g1].
  destruct (if substring_of "CCAFS" site then normal 5000 1500 g1
            else if substring_of "KSC" site then normal 6000 2000 g1
            else if substring_of "VAFB" site then normal 4000 1000 g1
            else normal 5000 1500 g1) as [mass g2].
  destruct (random g2) as [draw g3].
  destruct (randint 1 13 g3) as [mm g4].
  destruct (randint 1 29 g4) as [dd g5]. simpl.
  repeat split; try lia; discriminate.
Qed.

Lemma sample_loop_ok (count : nat) (i : Z) (g : rng) :
  List.length (fst (loop count i g)) = count
  /\ List.Forall sample_row_ok (fst (loop count i g)).
Proof.
  revert i g. induction count as [|count IH]; intros i g; simpl.
  - split; [reflexivity|constructor].
  - pose proof (sample_launch_ok i g) as [Hrow _].
    simpl.
    destruct (launch i g) as [row g1]. simpl in Hrow.
    specialize (IH (i + 1) g1).
    destruct (sample_loop _ _ _ _ _ _ _ _ _ _ _ count (i + 1) g1) as [data g2].
    simpl in *. destruct IH as [Hlen Hall].
    split; [now rewrite Hlen|now constructor].
Qed.

(** C10.  The table [create_realistic_sample_data] builds always has 120
    rows; every row has a payload mass of at least 1000 and the rocket
    "Falcon 9", so no row shows a zero mass or the rocket "Unknown". *)
Theorem sample_data_shape (g : rng) :
  List.length
    (fst (create_realistic_sample_data rng float seed choice normal random randint
            int_of_float float_lit true_div fsub fltb g)) = 120%nat
  /\ List.Forall (fun row => 1000 <= PayloadMass row
                             /\ Rocket row = VStr "Falcon 9"
                             /\ PayloadMass row <> 0
                             /\ Rocket row <> VStr "Unknown")
       (fst (create_realistic_sample_data rng float seed choice normal random randint
               int_of_float float_lit true_div fsub fltb g)).
Proof. exact (sample_loop_ok n_launches 0 (seed 42)). Qed.

End SampleFacts.

(** * Further properties of the scripts *)

(** ** eda_spacex_api.py: the table of [process_api_data] *)

Section ApiTable.
Import Py Shape EdaSpacexApi Derived.

Lemma add_payload_exact (total : Z) (payload : value) :
  api_payload_ok payload = true ->
  add_payload total payload = Ok (total + api_payload_mass payload).
Proof.
  intros H. destruct payload; cbn [add_payload api_payload_mass];
    try (f_equal; lia).
  simpl in H. destruct (dict_get d "mass_kg" VNone); try discriminate H.
  - cbn [truthy]. f_equal; lia.
  - cbn [truthy gt_zero bind num_of].
    destruct (n =? 0) eqn:E0; cbn [negb].
    + apply Z.eqb_eq in E0. f_equal; lia.
    + destruct (0 <? n) eqn:Hn; f_equal.
      * apply Z.ltb_lt in Hn. lia.
      * apply Z.ltb_ge in Hn. lia.
Qed.

Lemma sum_payloads_exact (payloads : list value) (total : Z) :
  forallb api_payload_ok payloads = true ->
  sum_payloads payloads total = Ok (total + api_payloads_mass payloads).
Proof.
  revert total. induction payloads as [|p l IH]; intros total H.
  - cbn. f_equal; lia.
  - cbn [forallb] in H. apply andb_true_iff in H as [Hp Hl].
    cbn [sum_payloads]. rewrite (add_payload_exact _ _ Hp). cbn [bind].
    rewrite (IH _ Hl). unfold api_payloads_mass. cbn [map fold_right].
    f_equal; lia.
Qed.


Lemma name_of_exact (x : value) : name_of x = Ok (api_name_of x).
Proof. destruct x; reflexivity. Qed.

Lemma process_launch_exact (d : dict) :
  api_launch_ok (VDict d) = true ->
  process_launch (VDict d) = Ok (if api_kept d then Some (api_row d) else None).
Proof.
  intros H. cbn [api_launch_ok] in H. apply andb_true_iff in H as [Hrocket Hpay].
  destruct (rocket_name_of d Hrocket) as (s & Hname & Hspec).
  unfold process_launch. cbn [py_get bind].
  rewrite Hname, name_of_exact. cbn [bind str_in].
  unfold api_kept, api_is_falcon9, api_row, api_total_mass. rewrite Hspec.
  destruct (substring_of "Falcon 9" s); [|reflexivity].
  destruct (dict_get d "payloads" (VList [])) as [| | | | | l |]; try discriminate Hpay.
  cbn [py_iter bind andb]. rewrite (sum_payloads_exact l 0 Hpay). cbn [bind].
  replace (0 + api_payloads_mass l) with (api_payloads_mass l) by lia.
  destruct (0 <? api_payloads_mass l); reflexivity.
Qed.

Lemma process_launches_exact (launches : list value) :
  forallb api_launch_ok launches = true ->
  for_collect process_launch launches = Ok (api_rows launches).
Proof.
  induction launches as [|launch l IH]; intros H; [reflexivity|].
  cbn [forallb] in H. apply andb_true_iff in H as [Hx Hl].
  destruct launch as [| | | | | | d]; try discriminate Hx.
  cbn [for_collect]. rewrite (process_launch_exact d Hx), (IH Hl). cbn [bind].
  unfold api_rows. cbn [flat_map]. destruct (api_kept d); reflexivity.
Qed.

(** What any launch that [process_launch] turns into a row looks like,
    whatever the shape of the feed. *)
Lemma process_launch_row (launch : value) (row : payload_row) :
  process_launch launch = Ok (Some row) ->
  0 < PayloadMass row /\ str_in "Falcon 9" (Rocket row) = Ok true.
Proof.
  unfold process_launch. destruct launch as [| | | | | | d]; try discriminate.
  cbn [py_get bind]. rewrite !name_of_exact. cbn [bind].
  destruct (str_in "Falcon 9" _) as [[|]|] eqn:E; cbn [bind]; try discriminate.
  destruct (py_iter _) as [items|]; cbn [bind]; try discriminate.
  destruct (sum_payloads items 0) as [total|]; cbn [bind]; try discriminate.
  destruct (0 <? total) eqn:Hpos; try discriminate.
  intros [= <-]. cbn [PayloadMass Rocket]. split; [now apply Z.ltb_lt|exact E].
Qed.

Lemma process_launches_rows (launches : list value) (rows : list payload_row) :
  for_collect process_launch launches = Ok rows ->
  List.Forall (fun row => 0 < PayloadMass row
                          /\ str_in "Falcon 9" (Rocket row) = Ok true) rows.
Proof.
  revert rows. induction launches as [|launch l IH]; intros rows.
  - intros [= <-]. constructor.
  - cbn [for_collect].
    destruct (process_launch launch) as [o|] eqn:Eo; cbn [bind]; try discriminate.
    destruct (for_collect process_launch l) as [out|]; cbn [bind]; try discriminate.
    intros [= <-]. destruct o as [row|]; [|now apply IH].
    constructor; [now apply process_launch_row with launch|now apply IH].
Qed.

End ApiTable.

Section ApiTableTheorems.
Import Py Shape EdaSpacexApi Derived.

(** X1.  On a feed of launch objects whose rockets have text names and
    whose payload lists hold objects with a null or numeric [mass_kg] (and
    any other entries), the table [process_api_data] builds is, in feed
    order, one row for each launch whose rocket name contains "Falcon 9"
    and whose positive embedded masses sum to more than zero; the row's
    mass is that sum; [None] when there is no such launch. *)
Theorem process_api_data_table (launches : list value) :
  forallb api_launch_ok launches = true ->
  process_api_data (VList launches)
  = Ok (match api_rows launches with [] => None | rows => Some rows end).
Proof.
  intros H. unfold process_api_data. destruct launches as [|x l]; [reflexivity|].
  cbn [truthy negb py_iter bind]. rewrite (process_launches_exact _ H). cbn [bind].
  destruct (api_rows (x :: l)); reflexivity.
Qed.

Lemma process_api_data_table_witness :
  process_api_data (VList Samples.api_launches)
  = Ok (match api_rows Samples.api_launches with [] => None | rows => Some rows end).
Proof. apply process_api_data_table. vm_compute. reflexivity. Defined.

(** X2.  A feed in the form the v4 API delivers, where every payload of
    every launch is an id, yields no table: [process_api_data] returns
    [None] and the script plots the synthetic table. *)
Theorem references_only_feed_falls_back (launches : list value) :
  forallb references_only launches = true ->
  process_api_data (VList launches) = Ok None
  /\ forall (rng float : Type) (seed : Z -> rng)
            (choice : list string -> rng -> string * rng)
            (normal : Z -> Z -> rng -> float * rng) (random : rng -> float * rng)
            (randint : Z -> Z -> rng -> Z * rng) (int_of_float : float -> Z)
            (float_lit : string -> float) (true_div : Z -> Z -> float)
            (fsub : float -> float -> float) (fltb : float -> float -> bool) (g : rng),
       main_table rng float seed choice normal random randint int_of_float
                  float_lit true_div fsub fltb (VList launches) g
       = Ok (create_realistic_sample_data rng float seed choice normal random
               randint int_of_float float_lit true_div fsub fltb g).
Proof.
  intros H.
  assert (Hok : forallb api_launch_ok launches = true).
  { apply forallb_forall. intros x Hx.
    pose proof (proj1 (forallb_forall _ _) H x Hx) as Hr.
    destruct x as [| | | | | | d]; try discriminate Hr.
    cbn [references_only api_launch_ok] in *.
    apply andb_true_iff in Hr as [Hrocket Hids]. rewrite Hrocket. cbn [andb].
    destruct (dict_get d "payloads" (VList [])) as [| | | | | l |]; try discriminate Hids.
    apply forallb_forall. intros p Hp.
    pose proof (proj1 (forallb_forall _ _) Hids p Hp) as Hs.
    destruct p; try discriminate Hs. reflexivity. }
  assert (Hrows : api_rows launches = []).
  { clear Hok. induction launches as [|x l IH]; [reflexivity|].
    cbn [forallb] in H. apply andb_true_iff in H as [Hx Hl].
    unfold api_rows. cbn [flat_map]. fold (api_rows l). rewrite (IH Hl).
    destruct x as [| | | | | | d]; try reflexivity.
    cbn [references_only] in Hx. apply andb_true_iff in Hx as [_ Hids].
    unfold api_kept, api_total_mass.
    destruct (dict_get d "payloads" (VList [])) as [| | | | | ids |]; try discriminate Hids.
    replace (api_payloads_mass ids) with 0.
    - rewrite andb_false_r. reflexivity.
    - clear -Hids. unfold api_payloads_mass.
      induction ids as [|p ids IH]; [reflexivity|].
      cbn [forallb] in Hids. apply andb_true_iff in Hids as [Hp Hids].
      cbn [map fold_right]. rewrite <- (IH Hids).
      destruct p; try discriminate Hp. reflexivity. }
  assert (E : process_api_data (VList launches) = Ok None).
  { unfold process_api_data. destruct launches as [|x l]; [reflexivity|].
    cbn [truthy negb py_iter bind]. rewrite (process_launches_exact _ Hok).
    cbn [bind]. rewrite Hrows. reflexivity. }
  split; [exact E|]. intros. unfold main_table. rewrite E.
  destruct (truthy (VList launches)); reflexivity.
Qed.

Lemma references_only_feed_falls_back_witness :
  process_api_data (VList Samples.id_launches) = Ok None.
Proof.
  apply (proj1 (references_only_feed_falls_back Samples.id_launches
                  ltac:(vm_compute; reflexivity))).
Defined.

(** X3.  Whatever the feed, a table [process_api_data] returns is not
    empty, every row of it has a positive payload mass and a rocket name
    that contains "Falcon 9". *)
Theorem process_api_data_rows (launches_data : value) (table : list payload_row) :
  process_api_data launches_data = Ok (Some table) ->
  table <> []
  /\ List.Forall (fun row => 0 < PayloadMass row
                             /\ str_in "Falcon 9" (Rocket row) = Ok true) table.
Proof.
  unfold process_api_data. destruct (negb (truthy launches_data)); try discriminate.
  destruct (py_iter launches_data) as [launches|]; cbn [bind]; try discriminate.
  destruct (for_collect process_launch launches) as [rows|] eqn:E; cbn [bind];
    try discriminate.
  destruct rows as [|row rows]; try discriminate. intros [= <-].
  split; [discriminate|]. now apply process_launches_rows with launches.
Qed.

Lemma process_api_data_rows_witness :
  exists table,
    process_api_data Examples.api_feed = Ok (Some table)
    /\ table <> []
    /\ List.Forall (fun row => 0 < PayloadMass row
                               /\ str_in "Falcon 9" (Rocket row) = Ok true) table.
Proof.
  eexists. split; [vm_compute; reflexivity|].
  apply (process_api_data_rows Examples.api_feed). vm_compute. reflexivity.
Defined.


End ApiTableTheorems.

(** ** max_payload_boosters.py: the launches of maximal mass *)

Section MaxPayload.
Import Py Pandas Spec Shape Rows Derived.





Lemma filter_filter_implied {X} (p q : X -> bool) (xs : list X) :
  (forall x, In x xs -> p x = true -> q x = true) ->
  List.filter p (List.filter q xs) = List.filter p xs.
Proof.
  induction xs as [|x xs IH]; intros H; [reflexivity|].
  cbn [List.filter].
  destruct (q x) eqn:Eq; cbn [List.filter]; destruct (p x) eqn:Ep.
  - f_equal. apply IH. intros y Hy. apply H. now right.
  - apply IH. intros y Hy. apply H. now right.
  - rewrite (H x (or_introl eq_refl) Ep) in Eq. discriminate Eq.
  - apply IH. intros y Hy. apply H. now right.
Qed.

Variables payloads_data rockets_data : gmap string dict.



End MaxPayload.

Section MaxPayloadExample.
Import Py.


End MaxPayloadExample.

(** ** The reference tables *)

Section ReferenceTables.
Import Py Pandas Spec Shape Rows Derived Reference.

Lemma for_each_raises {A B} (body : A -> res B) (xs : list A) (x : A) :
  In x xs -> raises (body x) = true -> raises (for_each body xs) = true.
Proof.
  induction xs as [|y ys IH]; [intros []|].
  intros [->|Hin] Hx; cbn [for_each].
  - destruct (body x); [discriminate Hx|reflexivity].
  - destruct (body y); [|reflexivity]. cbn [bind].
    specialize (IH Hin Hx). destruct (for_each body ys); [discriminate IH|reflexivity].
Qed.

Lemma entry_of_text (record : value) :
  text_id record = true ->
  exists k d, record = VDict d /\ id_of d = VStr k /\ entry_of record = Ok (Some (k, d)).
Proof.
  destruct record as [| | | | | | d]; try discriminate.
  cbn [text_id]. intros H. apply andb_true_iff in H as [Hkey Hid].
  unfold entry_of, subscript_id. rewrite Hkey. cbn [bind].
  unfold id_of in *. destruct (dict_get d "id" VNone) as [| | | | k | |] eqn:E;
    try discriminate Hid.
  exists k, d. repeat split. exact E.
Qed.

(** The comprehension over records with text ids, started from any table:
    a key of the result is the last record with that id, or what the
    table held before. *)
Lemma fold_entries (records : list value) (t0 : gmap string dict) :
  forallb text_id records = true ->
  exists entries t,
    for_each entry_of records = Ok entries
    /\ fold_left add_entry entries (Some t0) = Some t
    /\ forall k, t !! k
                 = match last (List.filter (fun d => eq_str (id_of d) k)
                                           (dicts_of records)) with
                   | Some d => Some d
                   | None => t0 !! k
                   end.
Proof.
  revert t0. induction records as [|r rs IH]; intros t0 H.
  - exists [], t0. repeat split.
  - cbn [forallb] in H. apply andb_true_iff in H as [Hr Hrs].
    destruct (entry_of_text r Hr) as (k0 & d & -> & Hid & Er).
    destruct (IH (<[k0 := d]> t0) Hrs) as (entries & t & Ees & Efold & Hlook).
    exists (Some (k0, d) :: entries), t. cbn [for_each]. rewrite Er, Ees.
    cbn [bind fold_left add_entry]. repeat split; [exact Efold|].
    intros k. rewrite Hlook. unfold dicts_of. cbn [flat_map app List.filter].
    fold (dicts_of rs). rewrite Hid. cbn [eq_str].
    destruct (String.eqb k0 k) eqn:Ek.
    + apply String.eqb_eq in Ek. subst k0.
      destruct (List.filter (fun d0 => eq_str (id_of d0) k) (dicts_of rs))
        as [|d1 ds] eqn:Ef.
      * cbn [last]. now rewrite lookup_insert_eq.
      * rewrite last_cons_cons, (last_cons d1 ds). now destruct (last ds).
    + apply String.eqb_neq in Ek.
      destruct (last (List.filter (fun d0 => eq_str (id_of d0) k) (dicts_of rs)));
        [reflexivity|].
      now rewrite lookup_insert_ne.
Qed.

(** X6.  The reference tables are all or nothing.  When the decoded
    response is not a list, or is a list with one record that is not an
    object with a hashable ["id"], the [except] clause discards every
    record: the table is empty. *)
Theorem reference_table_all_or_nothing (feed : value) :
  match feed with
  | VList records =>
      exists record, In record records /\ raises (entry_of record) = true
  | _ => True
  end ->
  obtener_tabla (Some feed) = Some ∅.
Proof.
  unfold obtener_tabla, comprehension.
  destruct feed as [| | | | s | records | d]; try reflexivity.
  - intros _. cbn [py_iter bind]. destruct s as [|c s]; [reflexivity|].
    reflexivity.
  - intros (record & Hin & Hraise). cbn [py_iter bind].
    pose proof (for_each_raises entry_of records record Hin Hraise) as H.
    destruct (for_each entry_of records); [discriminate H|reflexivity].
  - intros _. cbn [py_iter bind]. destruct d as [|kv d]; reflexivity.
Qed.

Lemma reference_table_all_or_nothing_witness :
  obtener_tabla (Some (VList Samples.broken_records)) = Some ∅.
Proof.
  apply (reference_table_all_or_nothing (VList Samples.broken_records)).
  exists (VDict [("name", VStr "Sat"); ("mass_kg", VInt 200)]).
  split; [right; left; reflexivity|reflexivity].
Defined.

(** X7.  When every record of the decoded response is an object with a
    text ["id"], the table holds, under each id, the last record of the
    feed with that id, and nothing under any other key. *)
Theorem reference_table_lookup (records : list value) :
  forallb text_id records = true ->
  exists table,
    obtener_tabla (Some (VList records)) = Some table
    /\ forall k, table !! k
                 = last (List.filter (fun d => eq_str (id_of d) k) (dicts_of records)).
Proof.
  intros H. destruct (fold_entries records ∅ H) as (entries & t & Ees & Efold & Hlook).
  exists t. unfold obtener_tabla, comprehension. cbn [py_iter bind].
  rewrite Ees. cbn [bind]. split; [exact Efold|].
  intros k. rewrite Hlook, lookup_empty.
  now destruct (last (List.filter (fun d => eq_str (id_of d) k) (dicts_of records))).
Qed.

Lemma reference_table_lookup_witness :
  exists table,
    obtener_tabla (Some (VList Samples.payload_records)) = Some table
    /\ forall k, table !! k
                 = last (List.filter (fun d => eq_str (id_of d) k)
                                     (dicts_of Samples.payload_records)).
Proof. apply reference_table_lookup. vm_compute. reflexivity. Defined.

Variable rockets_data : gmap string dict.





End ReferenceTables.

Section ReferenceExample.
Import Py Pandas Shape Rows Reference.


End ReferenceExample.

(** ** payload_vs_orbit.py and launch_sites_pattern.py: the rows kept *)

Section KeptRows.
Import Py Pandas Spec Shape Rows Derived.


Lemma site_row_name (launchpads_data : gmap string dict) (cols : list string)
    (launch : dict) :
  dict_get (site_row launchpads_data cols launch) "launch_site_name" VNaN
  = site_name launchpads_data launch.
Proof. unfold site_row, site_name. cells. reflexivity. Qed.

Lemma prefix_empty (s : string) : String.prefix EmptyString s = true.
Proof. now destruct s. Qed.

Lemma prefix_trans (p q s : string) :
  String.prefix p q = true -> String.prefix q s = true -> String.prefix p s = true.
Proof.
  revert q s. induction p as [|a p IH]; intros q s Hpq Hqs;
    [apply prefix_empty|].
  destruct q as [|b q]; [discriminate Hpq|].
  destruct s as [|c s]; [discriminate Hqs|].
  cbn [String.prefix] in *.
  destruct (ascii_dec a b) as [->|]; [|discriminate Hpq].
  destruct (ascii_dec b c) as [->|]; [|discriminate Hqs].
  now apply IH with q.
Qed.

Lemma sublist_filter_implied {X} (p q : X -> bool) (xs : list X) :
  (forall x, q x = true -> p x = true) ->
  sublist (List.filter q xs) (List.filter p xs).
Proof.
  intros H. induction xs as [|x xs IH]; [constructor|].
  cbn [List.filter]. destruct (q x) eqn:Eq.
  - rewrite (H x Eq). now apply sublist_skip.
  - destruct (p x); [now apply sublist_cons|exact IH].
Qed.

Lemma sublist_map {X Y} (f : X -> Y) (xs ys : list X) :
  sublist xs ys -> sublist (map f xs) (map f ys).
Proof.
  induction 1; cbn [map]; [constructor|now apply sublist_skip|now apply sublist_cons].
Qed.



Variable launchpads_data : gmap string dict.

Lemma buscar_sitios_patron_filter (launches : list dict) (pattern : string) :
  site_feed_ok launches = true ->
  LaunchSitesPattern.buscar_sitios_patron launchpads_data launches pattern
  = Ok (mkDF (site_columns (columns_of launches))
             (map (site_row launchpads_data (columns_of launches))
                  (List.filter
                     (fun launch =>
                        LaunchSitesPattern.startswith pattern
                          (site_name launchpads_data launch))
                     launches))).
Proof.
  intros H. unfold LaunchSitesPattern.buscar_sitios_patron.
  rewrite (with_site_columns_rows launchpads_data launches H). cbn [bind].
  rewrite getcol_map by (unfold site_columns; cells; reflexivity).
  cbn [bind columns rows]. rewrite map_map.
  rewrite <- select_map. f_equal. f_equal. f_equal.
  apply map_ext. intros r. now rewrite site_row_name.
Qed.

(** X10.  On a well-formed feed whose resolved site names are texts,
    [buscar_sitios_patron] returns, in feed order, the rows of exactly the
    launches whose site name (the launchpad's [name], "Unknown" when the
    launchpad does not resolve) starts with the pattern, compared case by
    case; every row returned has such a name. *)
Theorem buscar_sitios_patron_rows (launches : list dict) (pattern : string) :
  site_feed_ok launches = true ->
  forallb (fun launch => is_str (site_name launchpads_data launch)) launches = true ->
  exists df_pattern,
    LaunchSitesPattern.buscar_sitios_patron launchpads_data launches pattern
    = Ok df_pattern
    /\ rows df_pattern
       = map (site_row launchpads_data (columns_of launches))
             (List.filter
                (fun launch =>
                   match site_name launchpads_data launch with
                   | VStr site => String.prefix pattern site
                   | _ => false
                   end) launches)
    /\ List.Forall
         (fun row =>
            exists site, dict_get row "launch_site_name" VNaN = VStr site
                         /\ String.prefix pattern site = true)
         (rows df_pattern).
Proof.
  intros H _. eexists. split; [apply (buscar_sitios_patron_filter launches pattern H)|].
  cbn [rows]. split; [reflexivity|].
  apply List.Forall_forall. intros row Hrow.
  apply List.in_map_iff in Hrow as (launch & <- & Hin).
  apply List.filter_In in Hin as [_ Hkeep]. rewrite site_row_name.
  unfold LaunchSitesPattern.startswith in Hkeep.
  destruct (site_name launchpads_data launch); try discriminate Hkeep.
  eexists. split; [reflexivity|exact Hkeep].
Qed.

(** X11.  A longer pattern finds fewer sites: when [p] is a prefix of
    [q], the rows found for [q] are among the rows found for [p], in the
    same order; the empty pattern finds every launch whose site name is a
    text. *)
Theorem longer_pattern_finds_fewer_sites (launches : list dict) (p q : string) :
  site_feed_ok launches = true ->
  forallb (fun launch => is_str (site_name launchpads_data launch)) launches = true ->
  String.prefix p q = true ->
  exists df_p df_q df_all,
    LaunchSitesPattern.buscar_sitios_patron launchpads_data launches p = Ok df_p
    /\ LaunchSitesPattern.buscar_sitios_patron launchpads_data launches q = Ok df_q
    /\ LaunchSitesPattern.buscar_sitios_patron launchpads_data launches EmptyString
       = Ok df_all
    /\ sublist (rows df_q) (rows df_p)
    /\ List.length (rows df_all) = List.length launches.
Proof.
  intros H Htext Hpq. do 3 eexists.
  split; [apply (buscar_sitios_patron_filter launches p H)|].
  split; [apply (buscar_sitios_patron_filter launches q H)|].
  split; [apply (buscar_sitios_patron_filter launches EmptyString H)|].
  cbn [rows]. split.
  - apply sublist_map. apply sublist_filter_implied. intros launch.
    unfold LaunchSitesPattern.startswith.
    destruct (site_name launchpads_data launch); try discriminate.
    intros Hq. now apply prefix_trans with q.
  - rewrite length_map. f_equal.
    clear H. induction launches as [|launch l IH]; [reflexivity|].
    cbn [forallb] in Htext. apply andb_true_iff in Htext as [Hs Hl].
    cbn [List.filter]. destruct (site_name launchpads_data launch);
      try discriminate Hs.
    cbn [LaunchSitesPattern.startswith]. rewrite prefix_empty. f_equal. now apply IH.
Qed.

End KeptRows.

Section KeptRowsExample.
Import Py Pandas Shape Rows Derived.

Lemma buscar_sitios_patron_rows_witness :
  exists df_pattern,
    LaunchSitesPattern.buscar_sitios_patron Examples.launchpads_table Examples.feed
      "CCSFS" = Ok df_pattern
    /\ rows df_pattern
       = map (site_row Examples.launchpads_table (columns_of Examples.feed))
             (List.filter
                (fun launch =>
                   match site_name Examples.launchpads_table launch with
                   | VStr site => String.prefix "CCSFS" site
                   | _ => false
                   end) Examples.feed)
    /\ List.Forall
         (fun row =>
            exists site, dict_get row "launch_site_name" VNaN = VStr site
                         /\ String.prefix "CCSFS" site = true)
         (rows df_pattern).
Proof.
  apply buscar_sitios_patron_rows; vm_compute; reflexivity.
Defined.

Lemma longer_pattern_finds_fewer_sites_witness :
  exists df_p df_q df_all,
    LaunchSitesPattern.buscar_sitios_patron Examples.launchpads_table Examples.feed
      "CC" = Ok df_p
    /\ LaunchSitesPattern.buscar_sitios_patron Examples.launchpads_table Examples.feed
         "CCSFS" = Ok df_q
    /\ LaunchSitesPattern.buscar_sitios_patron Examples.launchpads_table Examples.feed
         EmptyString = Ok df_all
    /\ sublist (rows df_q) (rows df_p)
    /\ List.length (rows df_all) = List.length Examples.feed.
Proof.
  apply longer_pattern_finds_fewer_sites; vm_compute; reflexivity.
Defined.

End KeptRowsExample.

(** ** failed_landings_2015.py: the order of the records *)

Section SortedLandings.
Import Py Time Pandas Spec Shape Rows Derived.









Variables rockets_data launchpads_data : gmap string dict.



End SortedLandings.

Section SortedLandingsExample.
Import Py Time Pandas Shape Rows Derived.


End SortedLandingsExample.

(** ** landing_outcomes_ranking.py: the list of outcomes and its summary *)

Section Ranking.
Import Py Time Pandas Spec Shape Rows Derived.







Lemma for_each_inv {A B} (body : A -> res B) (xs : list A) (out : list B) (b : B) :
  for_each body xs = Ok out -> In b out -> exists x, In x xs /\ body x = Ok b.
Proof.
  revert out. induction xs as [|x xs IH]; intros out; cbn [for_each].
  - intros [= <-] [].
  - destruct (body x) as [b0|] eqn:Ex; cbn [bind]; try discriminate.
    destruct (for_each body xs) as [rest|]; cbn [bind]; try discriminate.
    intros [= <-] [<-|Hin].
    + exists x. split; [now left|exact Ex].
    + destruct (IH rest eq_refl Hin) as (y & Hy & Ey).
      exists y. split; [now right|exact Ey].
Qed.

Lemma for_concat_inv {A B} (body : A -> res (list B)) (xs : list A)
    (out : list B) (b : B) :
  for_concat body xs = Ok out -> In b out ->
  exists x l, In x xs /\ body x = Ok l /\ In b l.
Proof.
  revert out. induction xs as [|x xs IH]; intros out; cbn [for_concat].
  - intros [= <-] [].
  - destruct (body x) as [l|] eqn:Ex; cbn [bind]; try discriminate.
    destruct (for_concat body xs) as [rest|]; cbn [bind]; try discriminate.
    intros [= <-] Hin. apply in_app_or in Hin as [Hin|Hin].
    + exists x, l. split; [now left|]. split; [exact Ex|exact Hin].
    + destruct (IH rest eq_refl Hin) as (y & m & Hy & Ey & Hm).
      exists y, m. split; [now right|]. split; [exact Ey|exact Hm].
Qed.

Lemma label_sides (landing_success landing_type : value) :
  success_label
    (LandingOutcomesRanking.classify_landing_outcome landing_success landing_type)
  = truthy landing_success
  /\ failure_label
       (LandingOutcomesRanking.classify_landing_outcome landing_success landing_type)
     = negb (truthy landing_success).
Proof.
  unfold LandingOutcomesRanking.classify_landing_outcome.
  destruct (truthy landing_success), (eq_str landing_type "RTLS"),
    (eq_str landing_type "ASDS"), (eq_str landing_type "Ocean");
    split; vm_compute; reflexivity.
Qed.

Lemma clasificar_recorded (launches : list dict)
    (outcomes : list LandingOutcomesRanking.landing_outcome) :
  LandingOutcomesRanking.clasificar_resultados_aterrizaje launches = Ok outcomes ->
  List.Forall recorded outcomes.
Proof.
  unfold LandingOutcomesRanking.clasificar_resultados_aterrizaje.
  destruct (LandingOutcomesRanking.df_filtered launches) as [selected|] eqn:Esel;
    cbn [bind]; try discriminate.
  intros Hout. apply List.Forall_forall. intros o Ho.
  destruct (for_concat_inv _ _ _ _ Hout Ho) as ([row stamp] & l & Hin & Erow & Hl).
  assert (Hrange : LandingOutcomesRanking.in_range stamp = true).
  { unfold LandingOutcomesRanking.df_filtered in Esel.
    destruct (getcol _ _) as [dates|]; cbn [bind] in Esel; try discriminate.
    destruct (to_datetime dates) as [stamps|]; cbn [bind] in Esel; try discriminate.
    injection Esel as <-. now apply List.filter_In in Hin as [_ Hin]. }
  cbn [LandingOutcomesRanking.row_outcomes] in Erow.
  destruct (row_get row "cores") as [cores|]; cbn [bind] in Erow; try discriminate.
  destruct (truthy cores); [|injection Erow as <-; destruct Hl].
  destruct (py_len cores) as [n|]; cbn [bind] in Erow; try discriminate.
  destruct (0 <? n); [|injection Erow as <-; destruct Hl].
  destruct (py_iter cores) as [items|]; cbn [bind] in Erow; try discriminate.
  destruct (for_each_inv _ _ _ _ Erow Hl) as (core & _ & Ecore).
  unfold LandingOutcomesRanking.core_outcome in Ecore.
  destruct (py_get core "landing_success" _) as [success|]; cbn [bind] in Ecore;
    try discriminate.
  destruct (py_get core "landing_type" _) as [type|]; cbn [bind] in Ecore;
    try discriminate.
  destruct (row_get row "flight_number"); cbn [bind] in Ecore; try discriminate.
  destruct (row_get row "name"); cbn [bind] in Ecore; try discriminate.
  destruct (py_get core "core" _); cbn [bind] in Ecore; try discriminate.
  injection Ecore as <-. unfold recorded.
  cbn [LandingOutcomesRanking.date_utc LandingOutcomesRanking.outcome
       LandingOutcomesRanking.landing_success LandingOutcomesRanking.landing_type].
  destruct (label_sides success type) as [Hs Hf]. now repeat split.
Qed.

End Ranking.

Section RankingTheorems.
Import Py Time Pandas Spec Shape Rows Derived.

Lemma filter_length_split {X} (p : X -> bool) (xs : list X) :
  List.length xs
  = (List.length (List.filter p xs)
     + List.length (List.filter (fun x => negb (p x)) xs))%nat.
Proof.
  induction xs as [|x xs IH]; [reflexivity|].
  cbn [List.filter List.length]. destruct (p x); cbn [negb List.length]; lia.
Qed.

Lemma filter_ext_forall {X} (p q : X -> bool) (xs : list X) :
  List.Forall (fun x => q x = p x) xs -> List.filter q xs = List.filter p xs.
Proof.
  induction 1 as [|x xs Hx _ IH]; [reflexivity|].
  cbn [List.filter]. now rewrite Hx, IH.
Qed.



(** X14.  Whatever the feed, every outcome [clasificar_resultados_aterrizaje]
    returns is dated within the range, carries the label of its own
    landing success and landing type, and that label contains "Success"
    exactly when the landing success is truthy and "Failure" exactly when
    it is not. *)
Theorem landing_outcomes_recorded (launches : list dict)
    (landing_outcomes : list LandingOutcomesRanking.landing_outcome) :
  LandingOutcomesRanking.clasificar_resultados_aterrizaje launches
  = Ok landing_outcomes ->
  List.Forall
    (fun o =>
       LandingOutcomesRanking.in_range (LandingOutcomesRanking.date_utc o) = true
       /\ LandingOutcomesRanking.outcome o
          = LandingOutcomesRanking.classify_landing_outcome
              (LandingOutcomesRanking.landing_success o)
              (LandingOutcomesRanking.landing_type o)
       /\ success_label (LandingOutcomesRanking.outcome o)
          = truthy (LandingOutcomesRanking.landing_success o)
       /\ failure_label (LandingOutcomesRanking.outcome o)
          = negb (truthy (LandingOutcomesRanking.landing_success o)))
    landing_outcomes.
Proof. exact (clasificar_recorded launches landing_outcomes). Qed.

Lemma landing_outcomes_recorded_witness :
  exists landing_outcomes,
    LandingOutcomesRanking.clasificar_resultados_aterrizaje Samples.landing_launches
    = Ok landing_outcomes
    /\ landing_outcomes <> []
    /\ List.Forall recorded landing_outcomes.
Proof.
  eexists. split; [vm_compute; reflexivity|]. split; [discriminate|].
  apply (landing_outcomes_recorded Samples.landing_launches).
  vm_compute. reflexivity.
Defined.

(** X15.  The summary [mostrar_ranking_resultados] prints for the list
    [clasificar_resultados_aterrizaje] returned: it divides by the number
    of outcomes, so an empty list raises [ZeroDivisionError]; otherwise
    the number of successful landings is the number of outcomes whose
    label contains "Success" and the number of failed landings the number
    whose label contains "Failure", and the two add up to the total. *)
Theorem summary_counts_match_labels (launches : list dict)
    (landing_outcomes : list LandingOutcomesRanking.landing_outcome) :
  LandingOutcomesRanking.clasificar_resultados_aterrizaje launches
  = Ok landing_outcomes ->
  match Report.summary_statistics landing_outcomes with
  | Report.ZeroDivisionError => landing_outcomes = []
  | Report.Summary total_attempts successful_attempts failed_attempts =>
      landing_outcomes <> []
      /\ total_attempts = Z.of_nat (List.length landing_outcomes)
      /\ successful_attempts
         = Z.of_nat (List.length
                       (List.filter
                          (fun o => success_label (LandingOutcomesRanking.outcome o))
                          landing_outcomes))
      /\ failed_attempts
         = Z.of_nat (List.length
                       (List.filter
                          (fun o => failure_label (LandingOutcomesRanking.outcome o))
                          landing_outcomes))
      /\ successful_attempts + failed_attempts = total_attempts
  end.
Proof.
  intros H. apply clasificar_recorded in H.
  assert (Hs : List.filter (fun o => success_label (LandingOutcomesRanking.outcome o))
                           landing_outcomes
               = List.filter (fun o => truthy (LandingOutcomesRanking.landing_success o))
                             landing_outcomes).
  { apply filter_ext_forall. eapply List.Forall_impl; [|exact H].
    intros o (_ & _ & Hsucc & _). exact Hsucc. }
  assert (Hf : List.filter (fun o => failure_label (LandingOutcomesRanking.outcome o))
                           landing_outcomes
               = List.filter
                   (fun o => negb (truthy (LandingOutcomesRanking.landing_success o)))
                   landing_outcomes).
  { apply filter_ext_forall. eapply List.Forall_impl; [|exact H].
    intros o (_ & _ & _ & Hfail). exact Hfail. }
  unfold Report.summary_statistics. rewrite Hs, Hf.
  pose proof (filter_length_split
                (fun o => truthy (LandingOutcomesRanking.landing_success o))
                landing_outcomes) as Hlen.
  destruct (Z.of_nat (List.length landing_outcomes) =? 0) eqn:E.
  - apply Z.eqb_eq in E. destruct landing_outcomes; [reflexivity|].
    cbn [List.length] in E. lia.
  - apply Z.eqb_neq in E. split; [intros ->; now apply E|].
    repeat split; lia.
Qed.

Lemma summary_counts_match_labels_witness :
  exists landing_outcomes,
    LandingOutcomesRanking.clasificar_resultados_aterrizaje Samples.landing_launches
    = Ok landing_outcomes
    /\ match Report.summary_statistics landing_outcomes with
       | Report.ZeroDivisionError => landing_outcomes = []
       | Report.Summary total_attempts successful_attempts failed_attempts =>
           landing_outcomes <> []
           /\ total_attempts = Z.of_nat (List.length landing_outcomes)
           /\ successful_attempts
              = Z.of_nat (List.length
                            (List.filter
                               (fun o => success_label (LandingOutcomesRanking.outcome o))
                               landing_outcomes))
           /\ failed_attempts
              = Z.of_nat (List.length
                            (List.filter
                               (fun o => failure_label (LandingOutcomesRanking.outcome o))
                               landing_outcomes))
           /\ successful_attempts + failed_attempts = total_attempts
       end.
Proof.
  eexists. split; [vm_compute; reflexivity|].
  apply (summary_counts_match_labels Samples.landing_launches).
  vm_compute. reflexivity.
Defined.



End RankingTheorems.

(** ** The synthetic tables *)

Section SampleTables.
Import Py Time EdaSpacexApi Derived.
Variables rng float : Type.
Variable seed : Z -> rng.
Variable choice : list string -> rng -> string * rng.
Variable normal : Z -> Z -> rng -> float * rng.
Variable random : rng -> float * rng.
Variable randint : Z -> Z -> rng -> Z * rng.
Variable int_of_float : float -> Z.
Variable float_lit : string -> float.
Variable true_div : Z -> Z -> float.
Variable fsub : float -> float -> float.
Variable fltb : float -> float -> bool.

Lemma range_in (lo : Z) (n : nat) (z : Z) :
  lo <= z < lo + Z.of_nat n -> In z (range lo n).
Proof.
  intros H. unfold range. apply List.in_map_iff.
  exists (Z.to_nat (z - lo)). split; [lia|]. apply in_seq. lia.
Qed.

Lemma range_succ (lo : Z) (n : nat) :
  range lo (S n) = lo :: range (lo + 1) n.
Proof.
  unfold range. cbn [seq map]. f_equal; [lia|].
  rewrite <- seq_shift, map_map. apply map_ext. intros k. lia.
Qed.

Lemma sample_dates_valid (mm dd : Z) :
  1 <= mm < 13 -> 1 <= dd < 29 -> valid_sample_date mm dd = true.
Proof.
  intros Hmm Hdd.
  assert (H : forallb (fun m => forallb (valid_sample_date m) (range 1 28))
                      (range 1 12) = true) by (vm_compute; reflexivity).
  rewrite List.forallb_forall in H.
  specialize (H mm (range_in 1 12 mm ltac:(lia))).
  rewrite List.forallb_forall in H.
  exact (H dd (range_in 1 28 dd ltac:(lia))).
Qed.

Hypothesis randint_range :
  forall lo hi g, lo < hi -> lo <= fst (randint lo hi g) < hi.

Lemma sample_launch_row (i : Z) (g : rng) :
  let row := fst (sample_launch rng float choice normal random randint int_of_float
                    float_lit true_div fsub fltb i g) in
  FlightNumber row = VInt (i + 1)
  /\ (exists b, Success row = VBool b)
  /\ exists mm dd, Date row = VStr (sample_date mm dd)
                   /\ valid_sample_date mm dd = true.
Proof.
  unfold sample_launch.
  destruct (choice launch_sites g) as [site g1].
  destruct (if substring_of "CCAFS" site then normal 5000 1500 g1
            else if substring_of "KSC" site then normal 6000 2000 g1
            else if substring_of "VAFB" site then normal 4000 1000 g1
            else normal 5000 1500 g1) as [mass g2].
  destruct (random g2) as [draw g3].
  pose proof (randint_range 1 13 g3 ltac:(lia)) as Hmm.
  destruct (randint 1 13 g3) as [mm g4].
  pose proof (randint_range 1 29 g4 ltac:(lia)) as Hdd.
  destruct (randint 1 29 g4) as [dd g5].
  cbn [fst FlightNumber Success Date] in *.
  split; [reflexivity|]. split; [eexists; reflexivity|].
  exists mm, dd. split; [reflexivity|]. now apply sample_dates_valid.
Qed.

Lemma sample_loop_rows (count : nat) (i : Z) (g : rng) :
  let data := fst (sample_loop rng float choice normal random randint int_of_float
                     float_lit true_div fsub fltb count i g) in
  map FlightNumber data = map VInt (range (i + 1) count)
  /\ List.Forall
       (fun row =>
          (exists b, Success row = VBool b)
          /\ exists mm dd, Date row = VStr (sample_date mm dd)
                           /\ valid_sample_date mm dd = true) data.
Proof.
  revert i g. induction count as [|count IH]; intros i g; cbn [sample_loop].
  - split; [reflexivity|constructor].
  - pose proof (sample_launch_row i g) as (Hfn & Hrow).
    destruct (sample_launch _ _ _ _ _ _ _ _ _ _ _ i g) as [row g1].
    specialize (IH (i + 1) g1).
    destruct (sample_loop _ _ _ _ _ _ _ _ _ _ _ count (i + 1) g1) as [data g2].
    cbn [fst] in *. destruct IH as [Hnums Hall].
    split; [|now constructor].
    cbn [map]. rewrite range_succ, Hfn, Hnums. reflexivity.
Qed.

End SampleTables.

Section SampleTheorems.
Import Py Time EdaSpacexApi Derived.

Lemma generators_randint_range (lo hi g : Z) :
  lo < hi -> lo <= fst (Generators.randint lo hi g) < hi.
Proof.
  intros H. unfold Generators.randint. cbn [fst].
  pose proof (Z.mod_pos_bound g (hi - lo) ltac:(lia)). lia.
Qed.

(** X17.  The table [create_realistic_sample_data] builds numbers its
    rows 1 to 120 in order and gives every row a boolean success flag;
    when [randint(lo, hi)] draws from [lo, hi), every [Date] is a text that
    reads as a calendar date of the year 2020. *)
Theorem sample_data_rows (rng float : Type) (seed : Z -> rng)
    (choice : list string -> rng -> string * rng)
    (normal : Z -> Z -> rng -> float * rng) (random : rng -> float * rng)
    (randint : Z -> Z -> rng -> Z * rng) (int_of_float : float -> Z)
    (float_lit : string -> float) (true_div : Z -> Z -> float)
    (fsub : float -> float -> float) (fltb : float -> float -> bool) (g : rng) :
  (forall lo hi g0, lo < hi -> lo <= fst (randint lo hi g0) < hi) ->
  map FlightNumber
      (fst (create_realistic_sample_data rng float seed choice normal random randint
              int_of_float float_lit true_div fsub fltb g))
  = map VInt (range 1 120)
  /\ List.Forall
       (fun row =>
          (exists b, Success row = VBool b)
          /\ exists date stamp, Date row = VStr date /\ parse date = Some stamp
                                /\ year stamp = 2020)
       (fst (create_realistic_sample_data rng float seed choice normal random randint
               int_of_float float_lit true_div fsub fltb g)).
Proof.
  intros Hrand. unfold create_realistic_sample_data.
  destruct (sample_loop_rows rng float choice normal random randint int_of_float
              float_lit true_div fsub fltb Hrand n_launches 0 (seed 42))
    as [Hnums Hall].
  split; [exact Hnums|].
  eapply List.Forall_impl; [|exact Hall].
  intros row (Hb & mm & dd & Hdate & Hvalid). split; [exact Hb|].
  unfold valid_sample_date in Hvalid.
  destruct (parse (sample_date mm dd)) as [stamp|] eqn:Ep; [|discriminate Hvalid].
  exists (sample_date mm dd), stamp. split; [exact Hdate|]. split; [exact Ep|].
  apply andb_true_iff in Hvalid as [Hvalid _].
  apply andb_true_iff in Hvalid as [Hyear _]. now apply Z.eqb_eq.
Qed.

Lemma sample_data_rows_witness :
  map FlightNumber
      (fst (create_realistic_sample_data Z Z Generators.seed Generators.choice
              Generators.normal Generators.random Generators.randint
              Samples.int_of_float Samples.float_lit Samples.true_div Samples.fsub
              Samples.fltb 0))
  = map VInt (range 1 120)
  /\ List.Forall
       (fun row =>
          (exists b, Success row = VBool b)
          /\ exists date stamp, Date row = VStr date /\ parse date = Some stamp
                                /\ year stamp = 2020)
       (fst (create_realistic_sample_data Z Z Generators.seed Generators.choice
               Generators.normal Generators.random Generators.randint
               Samples.int_of_float Samples.float_lit Samples.true_div Samples.fsub
               Samples.fltb 0)).
Proof. apply sample_data_rows. exact generators_randint_range. Defined.

Lemma site_loop_rows (rng float : Type) (randint : Z -> Z -> rng -> Z * rng)
    (normal : Z -> Z -> rng -> float * rng)
    (choice_str : list string -> list Q -> rng -> string * rng)
    (choice_int : list Z -> list Q -> rng -> Z * rng)
    (count : nat) (site : string) (mu sigma : Z) (orbit_p class_p : list Q)
    (flight_number : Z) (g : rng) :
  let out := FlightVsLaunc.site_loop rng float randint normal choice_str choice_int
               count site mu sigma orbit_p class_p flight_number g in
  snd (fst out) = flight_number + Z.of_nat count
  /\ map (FlightVsLaunc.FlightNumber float) (fst (fst out)) = range flight_number count
  /\ map (FlightVsLaunc.LaunchSite float) (fst (fst out)) = repeat site count.
Proof.
  revert flight_number g. induction count as [|count IH]; intros fn g;
    cbn [FlightVsLaunc.site_loop].
  - cbn. repeat split. lia.
  - unfold FlightVsLaunc.sample_launch.
    destruct (randint 0 3650 g) as [days g1].
    destruct (normal mu sigma g1) as [mass g2].
    destruct (choice_str _ orbit_p g2) as [orbit g3].
    destruct (choice_int _ class_p g3) as [class g4].
    specialize (IH (fn + 1) g4).
    destruct (FlightVsLaunc.site_loop _ _ _ _ _ _ count site mu sigma orbit_p class_p
                (fn + 1) g4) as [[data next] g5].
    cbn [fst snd] in *. destruct IH as (Hnext & Hnums & Hsites).
    split; [lia|]. cbn [map repeat]. rewrite range_succ, Hnums, Hsites.
    split; reflexivity.
Qed.

(** X18.  The table [create_spacex_sample_data] builds has 90 rows,
    numbered 1 to 90 in order: the first 55 at "CCAFS SLC 40", the next 22
    at "KSC LC 39A" and the last 13 at "VAFB SLC 4E", whatever the
    generator draws. *)
Theorem spacex_sample_data_layout (rng float : Type) (seed : Z -> rng)
    (randint : Z -> Z -> rng -> Z * rng) (normal : Z -> Z -> rng -> float * rng)
    (choice_str : list string -> list Q -> rng -> string * rng)
    (choice_int : list Z -> list Q -> rng -> Z * rng) (g : rng) :
  map (FlightVsLaunc.FlightNumber float)
      (fst (FlightVsLaunc.create_spacex_sample_data rng float seed randint normal
              choice_str choice_int g))
  = range 1 90
  /\ map (FlightVsLaunc.LaunchSite float)
         (fst (FlightVsLaunc.create_spacex_sample_data rng float seed randint normal
                 choice_str choice_int g))
     = (repeat "CCAFS SLC 40" 55 ++ repeat "KSC LC 39A" 22
        ++ repeat "VAFB SLC 4E" 13)%list.
Proof.
  unfold FlightVsLaunc.create_spacex_sample_data.
  pose proof (site_loop_rows rng float randint normal choice_str choice_int 55
                "CCAFS SLC 40" 5000 1500 [4 # 10; 3 # 10; 3 # 10]%Q
                [33 # 100; 67 # 100]%Q 1 (seed 42)) as H1.
  destruct (FlightVsLaunc.site_loop _ _ _ _ _ _ 55 _ _ _ _ _ 1 (seed 42))
    as [[ccafs fn1] g1].
  cbn [fst snd] in H1. destruct H1 as (-> & Hn1 & Hs1).
  pose proof (site_loop_rows rng float randint normal choice_str choice_int 22
                "KSC LC 39A" 6000 2000 [3 # 10; 4 # 10; 3 # 10]%Q
                [25 # 100; 75 # 100]%Q (1 + Z.of_nat 55) g1) as H2.
  destruct (FlightVsLaunc.site_loop _ _ _ _ _ _ 22 _ _ _ _ _ (1 + Z.of_nat 55) g1)
    as [[ksc fn2] g2].
  cbn [fst snd] in H2. destruct H2 as (-> & Hn2 & Hs2).
  pose proof (site_loop_rows rng float randint normal choice_str choice_int 13
                "VAFB SLC 4E" 4000 1000 [5 # 10; 2 # 10; 3 # 10]%Q
                [4 # 10; 6 # 10]%Q (1 + Z.of_nat 55 + Z.of_nat 22) g2) as H3.
  destruct (FlightVsLaunc.site_loop _ _ _ _ _ _ 13 _ _ _ _ _
              (1 + Z.of_nat 55 + Z.of_nat 22) g2) as [[vafb fn3] g3].
  cbn [fst snd] in H3. destruct H3 as (_ & Hn3 & Hs3).
  cbn [fst]. rewrite !map_app, Hn1, Hn2, Hn3, Hs1, Hs2, Hs3.
  split; [vm_compute; reflexivity|reflexivity].
Qed.

End SampleTheorems.

(** ** flight_vs_orbit.py and its two copies *)

Section FlightOrbit.
Import Py Time Pandas Spec Shape Rows Derived.
Variable payloads_data : gmap string dict.





End FlightOrbit.

Section FlightOrbitExample.
Import Py Pandas Shape Rows Derived.


End FlightOrbitExample.

(** ** mission_outcomes.py *)

Section Missions.
Import Py Pandas Shape Derived.

Lemma mission_counts (launches : list dict) :
  has_columns launches ["success"] = true ->
  MissionOutcomes.calcular_resultados_misiones launches
  = let valid :=
      List.filter (fun launch => MissionOutcomes.notna (dict_get launch "success" VNaN))
                  launches in
    let total_missions := Z.of_nat (List.length valid) in
    Ok (if total_missions =? 0 then MissionOutcomes.ZeroDivisionError
        else MissionOutcomes.Results total_missions
               (Z.of_nat (List.length (List.filter (flag_is true) valid)))
               (Z.of_nat (List.length (List.filter (flag_is false) valid)))).
Proof.
  intros Hcols.
  pose proof (has_columns_mem _ _ "success" Hcols ltac:(simpl; tauto)) as Hc.
  unfold MissionOutcomes.calcular_resultados_misiones, DataFrame_of.
  cbv zeta. cbn [rows columns].
  set (cols := columns_of launches) in *.
  rewrite getcol_map by exact Hc. cbn [bind]. rewrite map_map.
  rewrite (map_ext _ (fun launch =>
                        MissionOutcomes.notna (dict_get launch "success" VNaN)))
    by (intros r; cells; now rewrite Hc).
  rewrite select_map.
  rewrite getcol_map by exact Hc. cbn [bind]. rewrite !map_map.
  rewrite (map_ext (fun x => MissionOutcomes.eq_bool
                               (dict_get (fill cols x) "success" VNaN) true)
                   (flag_is true))
    by (intros r; unfold flag_is; cells; now rewrite Hc).
  rewrite (map_ext (fun x => MissionOutcomes.eq_bool
                               (dict_get (fill cols x) "success" VNaN) false)
                   (flag_is false))
    by (intros r; unfold flag_is; cells; now rewrite Hc).
  rewrite !select_map, !length_map.
  destruct (Z.of_nat _ =? 0); reflexivity.
Qed.

Lemma flag_is_notna (b : bool) (launch : dict) :
  flag_is b launch = true ->
  MissionOutcomes.notna (dict_get launch "success" VNaN) = true.
Proof.
  unfold flag_is. now destruct (dict_get launch "success" VNaN).
Qed.

Lemma flag_sides (launch : dict) :
  flag_ok launch = true ->
  MissionOutcomes.notna (dict_get launch "success" VNaN) = true ->
  flag_is false launch = negb (flag_is true launch).
Proof.
  unfold flag_ok, flag_is.
  destruct (dict_get launch "success" VNaN) as [|[|]| | | | |]; try discriminate;
    reflexivity.
Qed.

(** X20.  On a feed with a [success] column whose flags are booleans or
    null, [calcular_resultados_misiones] counts the launches with a flag:
    the successful and the failed missions are the launches flagged
    [True] and [False] and add up to the total; when no launch has a flag
    the division that computes the rates raises [ZeroDivisionError]. *)
Theorem mission_outcome_counts (launches : list dict) :
  has_columns launches ["success"] = true ->
  forallb flag_ok launches = true ->
  match MissionOutcomes.calcular_resultados_misiones launches with
  | Ok MissionOutcomes.ZeroDivisionError =>
      forall launch, In launch launches ->
                     MissionOutcomes.notna (dict_get launch "success" VNaN) = false
  | Ok (MissionOutcomes.Results total_missions successful_missions failed_missions) =>
      0 < total_missions <= Z.of_nat (List.length launches)
      /\ successful_missions
         = Z.of_nat (List.length (List.filter (flag_is true) launches))
      /\ failed_missions
         = Z.of_nat (List.length (List.filter (flag_is false) launches))
      /\ successful_missions + failed_missions = total_missions
  | Raise _ => False
  end.
Proof.
  intros Hcols Hflags. rewrite (mission_counts launches Hcols). cbv zeta.
  set (valid := List.filter
                  (fun launch => MissionOutcomes.notna (dict_get launch "success" VNaN))
                  launches).
  assert (Hvalid : forall launch, In launch valid <->
                     In launch launches
                     /\ MissionOutcomes.notna (dict_get launch "success" VNaN) = true)
    by (intros launch; apply List.filter_In).
  destruct (Z.of_nat (List.length valid) =? 0) eqn:E.
  - apply Z.eqb_eq in E. intros launch Hin.
    destruct (MissionOutcomes.notna (dict_get launch "success" VNaN)) eqn:Hn;
      [|reflexivity].
    assert (Hv : In launch valid) by (apply Hvalid; now split).
    destruct valid; [destruct Hv|]. cbn [List.length] in E. lia.
  - apply Z.eqb_neq in E.
    assert (Ht : List.filter (flag_is true) valid = List.filter (flag_is true) launches)
      by (apply filter_filter_implied; intros launch _; apply flag_is_notna).
    assert (Hf : List.filter (flag_is false) valid = List.filter (flag_is false) launches)
      by (apply filter_filter_implied; intros launch _; apply flag_is_notna).
    assert (Hsplit : List.filter (flag_is false) valid
                     = List.filter (fun launch => negb (flag_is true launch)) valid).
    { apply List.filter_ext_in. intros launch Hin. apply Hvalid in Hin as [Hin Hn].
      apply flag_sides; [|exact Hn].
      rewrite List.forallb_forall in Hflags. now apply Hflags. }
    pose proof (filter_length_split (flag_is true) valid) as Hlen.
    rewrite <- Hsplit in Hlen. rewrite Ht, Hf in *.
    pose proof (List.filter_length_le
                  (fun launch => MissionOutcomes.notna (dict_get launch "success" VNaN))
                  launches) as Hle.
    fold valid in Hle. repeat split; lia.
Qed.

End Missions.

Section MissionsExample.
Import Py Pandas Shape Derived.

Lemma mission_outcome_counts_witness :
  match MissionOutcomes.calcular_resultados_misiones Examples.feed with
  | Ok MissionOutcomes.ZeroDivisionError =>
      forall launch, In launch Examples.feed ->
                     MissionOutcomes.notna (dict_get launch "success" VNaN) = false
  | Ok (MissionOutcomes.Results total_missions successful_missions failed_missions) =>
      0 < total_missions <= Z.of_nat (List.length Examples.feed)
      /\ successful_missions
         = Z.of_nat (List.length (List.filter (flag_is true) Examples.feed))
      /\ failed_missions
         = Z.of_nat (List.length (List.filter (flag_is false) Examples.feed))
      /\ successful_missions + failed_missions = total_missions
  | Raise _ => False
  end.
Proof. apply mission_outcome_counts; vm_compute; reflexivity. Defined.

End MissionsExample.

(** ** The normalizers as whole calls *)

Section WholeCalls.
Import Py Time Pandas Spec Shape Rows Derived.














End WholeCalls.

(** ** What the normalizers raise on *)

Section FailureModes.
Import Py Time Pandas Spec Shape Rows Derived.




(** Values of another type than the documented one pass the loops and
    are met by pandas: a success flag that is a text has no mean, an orbit
    that is a list cannot be counted, and a date column of two formats
    cannot be read. *)
Lemma unvalidated_values_raise :
  EdaSpacexApi.process_api_data Samples.text_success_feed
  = Ok (Some [EdaSpacexApi.mkRow (VInt 7) (VStr "Unknown") 500 (VStr "yes")
                                 (VStr EmptyString) (VStr "Falcon 9")])
  /\ Calls.process_api_data Samples.text_success_feed = Raise TypeError
  /\ Calls.procesar_datos Samples.list_orbit_table Examples.feed = Raise TypeError
  /\ Calls.procesar_datos Examples.payloads_table Samples.mixed_dates_feed
     = Raise ValueError.
Proof. repeat split; vm_compute; reflexivity. Qed.

End FailureModes.
